(** * SAML authentication provider: model and verified properties

    Shallow embedding of the SAML provider found in
    [x-pack/plugins/canvas/public/components/refresh_control/index.js]
    (second document of that file): [isAccessTokenExpiredError],
    [isSAMLResponsePayload], [isSAMLRequestQuery] and the class
    [SAMLAuthenticationProvider] with its strategies.

    The provider is an [async] object whose methods await the Elasticsearch
    client one call after the other, mutate [request.headers.authorization]
    and catch what the client throws.  It is embedded in a state-and-error
    monad over a [World]: the request object, the state of the backend, and
    two histories that only grow (the backend calls and the log sink).  One
    call owns its request from entry to return: the [await]s are sequenced
    and no other task touches the request in between. *)

From Stdlib Require Import ZArith List String Ascii Bool Lia DecimalString.
Import ListNotations.
Open Scope string_scope.
Open Scope bool_scope.

(* ===================================================================== *)
(** ** JavaScript values *)
(* ===================================================================== *)

(** Values of type [any]: what the provider receives as request payload,
    request query and thrown error, and probes with [&&] and property reads.
    An object is the list of its own properties; a number is an integer,
    which is all the provider compares a number with. *)
#[warnings="-register-all"]
Inductive JsVal : Type :=
| JUndefined
| JNull
| JBool (b : bool)
| JNum (n : Z)
| JStr (s : string)
| JObj (props : list (string * JsVal)).

(** ToBoolean. *)
Definition truthy (v : JsVal) : bool :=
  match v with
  | JUndefined | JNull => false
  | JBool b => b
  | JNum n => negb (n =? 0)%Z
  | JStr s => negb (s =? "")
  | JObj _ => true
  end.

Fixpoint lookup (k : string) (props : list (string * JsVal)) : JsVal :=
  match props with
  | [] => JUndefined
  | (k', v) :: rest => if k' =? k then v else lookup k rest
  end.

(** [v.k] for a value that is neither [undefined] nor [null]; the names read
    by the provider ([body], [error], [reason], [message], [SAMLResponse],
    [SAMLRequest]) are not properties of the primitive wrappers. *)
Definition get (v : JsVal) (k : string) : JsVal :=
  match v with
  | JObj props => lookup k props
  | _ => JUndefined
  end.

(** [v.k] as the language defines it: reading a property of [undefined] or
    [null] throws ([None]). *)
Definition get_strict (v : JsVal) (k : string) : option JsVal :=
  match v with
  | JUndefined | JNull => None
  | _ => Some (get v k)
  end.

(** [v.k1.k2...kn]. *)
Fixpoint get_path (v : JsVal) (ks : list string) : option JsVal :=
  match ks with
  | [] => Some v
  | k :: ks' =>
      match get_strict v k with
      | Some v' => get_path v' ks'
      | None => None
      end
  end.

(** [a && b] and [a || b] return one of their operands. *)
Definition js_and (a b : JsVal) : JsVal := if truthy a then b else a.
Definition js_or (a b : JsVal) : JsVal := if truthy a then a else b.

(** [v === n] for a number literal, [v === s] for a string literal. *)
Definition strict_eq_num (v : JsVal) (n : Z) : bool :=
  match v with JNum m => (m =? n)%Z | _ => false end.
Definition strict_eq_str (v : JsVal) (s : string) : bool :=
  match v with JStr t => t =? s | _ => false end.

(** Template-literal conversion of a value to a string. *)
Definition ToString (v : JsVal) : string :=
  match v with
  | JUndefined => "undefined"
  | JNull => "null"
  | JBool true => "true"
  | JBool false => "false"
  | JNum n => NilZero.string_of_int (Z.to_int n)
  | JStr s => s
  | JObj _ => "[object Object]"
  end.

(** [!x] for [x : string | undefined]: the empty string is falsy as well. *)
Definition not_str (x : option string) : bool :=
  match x with
  | None => true
  | Some s => s =? ""
  end.

(** The string behind [x : string | undefined] once [!x] has been excluded. *)
Definition value_of (x : option string) : string :=
  match x with
  | Some s => s
  | None => ""
  end.

(** [a || b] for [a : string | undefined] and a string [b]. *)
Definition or_str (a : option string) (b : string) : string :=
  match a with
  | Some (String c s) => String c s
  | _ => b
  end.

(* ===================================================================== *)
(** ** Strings: [split(/\s+/)], [toLowerCase], [slice(1)] *)
(* ===================================================================== *)

(** Header values reach the provider with one code unit per byte (latin-1),
    so a character is an [ascii].  In that range the class [\s] holds
    U+0009..U+000D, U+0020 and U+00A0. *)
Definition is_whitespace (c : ascii) : bool :=
  let n := nat_of_ascii c in
  ((9 <=? n) && (n <=? 13) || (n =? 32) || (n =? 160))%nat.

(** [s.split(/\s+/)]: the pieces between maximal runs of whitespace; a
    leading or trailing run leaves an empty piece at that end. *)
Fixpoint split_whitespace (s : string) : list string :=
  match s with
  | EmptyString => [EmptyString]
  | String c s' =>
      if is_whitespace c then
        match s' with
        | EmptyString => [EmptyString; EmptyString]
        | String c' _ =>
            if is_whitespace c' then split_whitespace s'
            else EmptyString :: split_whitespace s'
        end
      else
        match split_whitespace s' with
        | piece :: pieces => String c piece :: pieces
        | [] => [String c EmptyString]
        end
  end.

Definition toLowerCase_char (c : ascii) : ascii :=
  let n := nat_of_ascii c in
  if ((65 <=? n) && (n <=? 90)
      || (192 <=? n) && (n <=? 222) && negb (n =? 215))%nat
  then ascii_of_nat (n + 32)
  else c.

Fixpoint toLowerCase (s : string) : string :=
  match s with
  | EmptyString => EmptyString
  | String c s' => String (toLowerCase_char c) (toLowerCase s')
  end.

(** [s.slice(1)]. *)
Definition slice_1 (s : string) : string :=
  match s with
  | EmptyString => EmptyString
  | String _ s' => s'
  end.

(** Decimal rendering of a non-negative integer inside a template literal. *)
Definition string_of_N (n : N) : string := NilZero.string_of_uint (N.to_uint n).

(* ===================================================================== *)
(** ** Data model *)
(* ===================================================================== *)

(** [interface ProviderOptions], without [client] and [log], which live in
    the [World]. *)
Record ProviderOptions : Type := {
  protocol : string;
  hostname : string;
  port : N;
  basePath : string
}.

(** [interface ProviderState]: every field is optional. *)
Record ProviderState : Type := {
  requestId : option string;
  nextURL : option string;
  accessToken : option string;
  refreshToken : option string
}.

(** The object literal [{}]. *)
Definition emptyState : ProviderState :=
  {| requestId := None; nextURL := None; accessToken := None; refreshToken := None |}.

(** What the provider reads of the HapiJS request.  [headers_authorization]
    is [None] when the property is absent; it is the one field the provider
    writes. *)
Record Request : Type := {
  headers_authorization : option string;
  payload : JsVal;
  query : JsVal;
  url_path : string;
  url_search : option string;
  getBasePath : string
}.

Definition with_authorization (h : option string) (r : Request) : Request :=
  {| headers_authorization := h;
     payload := payload r;
     query := query r;
     url_path := url_path r;
     url_search := url_search r;
     getBasePath := getBasePath r |}.

(** A thrown error is an object: the rejections of the Elasticsearch client
    and the errors that Boom builds.  A promise rejected with [null] or
    [undefined], on which the [err.message] of a [catch] block would throw in
    its turn, is outside the model. *)
Definition Error : Type := list (string * JsVal).

(** [err.message] inside a template literal. *)
Definition message_of (err : Error) : string :=
  ToString (lookup "message" err).

(** Modelled from the spec: the class [AuthenticationResult] is imported from
    [../authentication_result]; here it is the tagged union of section 3,
    with the constructors [notHandled()], [succeeded(user, state?)],
    [failed(error)] and [redirectTo(url, state?)]. *)
Module AuthenticationResult.
Inductive t : Type :=
| NotHandled
| Succeeded (user : JsVal) (state : option ProviderState)
| Failed (error : Error)
| RedirectTo (url : string) (state : option ProviderState).

Definition notHandled (r : t) : bool :=
  match r with NotHandled => true | _ => false end.
Definition failed (r : t) : bool :=
  match r with Failed _ => true | _ => false end.
Definition succeeded (r : t) : bool :=
  match r with Succeeded _ _ => true | _ => false end.
Definition redirected (r : t) : bool :=
  match r with RedirectTo _ _ => true | _ => false end.
(** The accessor [.error]. *)
Definition error (r : t) : JsVal :=
  match r with Failed e => JObj e | _ => JUndefined end.
End AuthenticationResult.

(** Modelled from the spec: the class [DeauthenticationResult] is imported
    from [../deauthentication_result]; the tagged union of section 3. *)
Module DeauthenticationResult.
Inductive t : Type :=
| NotHandled
| RedirectTo (url : string)
| Failed (error : Error).
End DeauthenticationResult.

(* ===================================================================== *)
(** ** The backend client *)
(* ===================================================================== *)

(** Response bodies, as the destructuring patterns of the provider and the
    backend contract give them: every field that the provider destructures
    is there and is a string.  A response that lacks one of them is outside
    the model. *)
Record TokenResponse : Type := {
  access_token : string;
  refresh_token : string
}.

Record SamlPrepareResponse : Type := {
  id : string;
  prepare_redirect : string
}.

(** [redirect] is [None] when the field is [null] or missing. *)
Record LogoutResponse : Type := {
  redirect : option string
}.

(** The privileged calls, [callWithInternalUser(endpoint, { body })], each
    with the type of its response. *)
Inductive InternalCall : Type -> Type :=
| shield_samlPrepare (acs : string) : InternalCall SamlPrepareResponse
| shield_samlAuthenticate (ids : list string) (content : JsVal) :
    InternalCall TokenResponse
| shield_getAccessToken (grant_type : string) (refresh_token : string) :
    InternalCall TokenResponse
| shield_samlLogout (token : option string) (refresh_token : option string) :
    InternalCall LogoutResponse
| shield_samlInvalidate (queryString : string) (acs : string) :
    InternalCall LogoutResponse.

(** [options.client]: a backend in state [ES] answers a call with an error
    (the promise rejects) or a response, and moves to a new state.
    [callWithRequest] sees the request as it is when the call is made. *)
Class Cluster (ES : Type) : Type := {
  callWithRequest : Request -> string -> ES -> (Error + JsVal) * ES;
  callWithInternalUser : forall R, InternalCall R -> ES -> (Error + R) * ES
}.

(** What the provider imports and this file does not hold:
    [getErrorStatusCode] (from [../../errors]), [canRedirectRequest] (from
    [../../can_redirect_request]) and [Boom.badRequest].  They are parameters
    of the model. *)
Class Imports : Type := {
  getErrorStatusCode : JsVal -> JsVal;
  canRedirectRequest : Request -> bool;
  Boom_badRequest : string -> Error
}.

(** One entry of the call history. *)
Inductive BackendCall : Type :=
| AsUser (request : Request) (endpoint : string)
| AsInternalUser {R : Type} (call : InternalCall R).

Definition is_getAccessToken (c : BackendCall) : bool :=
  match c with
  | AsInternalUser (shield_getAccessToken _ _) => true
  | _ => false
  end.

Definition not_getAccessToken (c : BackendCall) : bool :=
  negb (is_getAccessToken c).

(** One call of [options.log(tags, message)]. *)
Definition LogEntry : Type := (list string * string)%type.

(* ===================================================================== *)
(** ** The provider *)
(* ===================================================================== *)

Section Provider.

Context {ES : Type} {client : Cluster ES} {imports : Imports}.
Variable options : ProviderOptions.

Record World : Type := mkWorld {
  request : Request;
  backend : ES;
  calls : list BackendCall;
  logged : list LogEntry
}.

(** A computation ends with a thrown error or a value; what it did to the
    world stays done in both cases. *)
Definition M (A : Type) : Type := World -> (Error + A) * World.

Definition ret {A} (a : A) : M A := fun w => (inr a, w).

Definition bind {A B} (m : M A) (k : A -> M B) : M B :=
  fun w =>
    match m w with
    | (inl e, w') => (inl e, w')
    | (inr a, w') => k a w'
    end.

(** [try { body } catch (err) { handler }]. *)
Definition try_catch {A} (body : M A) (handler : Error -> M A) : M A :=
  fun w =>
    match body w with
    | (inl e, w') => handler e w'
    | (inr a, w') => (inr a, w')
    end.

(** The world [w] after the messages [entries] have been logged. *)
Definition with_logs (w : World) (entries : list string) : World :=
  mkWorld (request w) (backend w) (calls w)
          (logged w
             ++ map (fun m => (["debug"; "security"; "saml"], m)) entries).

(** The world [w] with [request.headers.authorization] set to [h], or
    deleted when [h] is [None]. *)
Definition with_header (w : World) (h : option string) : World :=
  mkWorld (with_authorization h (request w)) (backend w) (calls w) (logged w).

(** The world [w] after the backend has answered [call] and moved to [es]. *)
Definition answered (w : World) (call : BackendCall) (es : ES) : World :=
  mkWorld (request w) es (calls w ++ [call]) (logged w).

(** The computation [m] only adds, to the call history, calls that pass
    [allowed]. *)
Definition adds_calls {A} (allowed : BackendCall -> bool) (m : M A) : Prop :=
  forall w,
    exists new,
      calls (snd (m w)) = (calls w ++ new)%list /\ forallb allowed new = true.

(** Run on a request without the header, the strategy [m] returns a result
    (it does not throw), and unless that result is [Succeeded] the request is
    without the header afterwards as well. *)
Definition leaves_header_absent (m : M AuthenticationResult.t) : Prop :=
  forall w,
    headers_authorization (request w) = None ->
    exists result w',
      m w = (inr result, w')
      /\ (AuthenticationResult.succeeded result = true
          \/ headers_authorization (request w') = None).

Definition getRequest : M Request := fun w => (inr (request w), w).

(** [request.headers.authorization = value]. *)
Definition set_authorization (value : string) : M unit :=
  fun w => (inr tt, with_header w (Some value)).

(** [delete request.headers.authorization]. *)
Definition delete_authorization : M unit :=
  fun w => (inr tt, with_header w None).

(** [this.options.log(['debug', 'security', 'saml'], message)]. *)
Definition log (msg : string) : M unit :=
  fun w => (inr tt, with_logs w [msg]).

(** [await this.options.client.callWithRequest(request, endpoint)]. *)
Definition await_callWithRequest (endpoint : string) : M JsVal :=
  fun w =>
    let (answer, es') := callWithRequest (request w) endpoint (backend w) in
    (answer, answered w (AsUser (request w) endpoint) es').

(** [await this.options.client.callWithInternalUser(endpoint, { body })]. *)
Definition await_callWithInternalUser {R} (c : InternalCall R) : M R :=
  fun w =>
    let (answer, es') := callWithInternalUser R c (backend w) in
    (answer, answered w (AsInternalUser c) es').

Notation "x <- m ;; k" := (bind m (fun x => k))
  (at level 61, m at next level, right associativity).
Notation "m ;; k" := (bind m (fun _ => k))
  (at level 61, right associativity).

(** [isAccessTokenExpiredError(err)]: the value of the [||] / [&&] chain. *)
Definition isAccessTokenExpiredError (err : JsVal) : JsVal :=
  let errorStatusCode := getErrorStatusCode err in
  js_or
    (JBool (strict_eq_num errorStatusCode 401))
    (js_and
       (js_and
          (js_and
             (js_and (JBool (strict_eq_num errorStatusCode 500)) err)
             (get err "body"))
          (get (get err "body") "error"))
       (JBool (strict_eq_str
                 (get (get (get err "body") "error") "reason")
                 "token document is missing and must be present"))).

(** [isSAMLResponsePayload(payload)]. *)
Definition isSAMLResponsePayload (payload : JsVal) : JsVal :=
  js_and payload (get payload "SAMLResponse").

(** [isSAMLRequestQuery(query)]. *)
Definition isSAMLRequestQuery (query : JsVal) : JsVal :=
  js_and query (get query "SAMLRequest").

(** [getACS()]. *)
Definition getACS : string :=
  (protocol options ++ "://" ++ hostname options ++ ":"
     ++ string_of_N (port options))
  ++ (basePath options ++ "/api/security/v1/saml").

(** [authenticateViaHandshake(request)]. *)
Definition authenticateViaHandshake : M AuthenticationResult.t :=
  log "Trying to initiate SAML handshake." ;;
  request <- getRequest ;;
  if negb (canRedirectRequest request) then
    log "SAML handshake can not be initiated by AJAX requests." ;;
    ret AuthenticationResult.NotHandled
  else
    try_catch
      (response <- await_callWithInternalUser (shield_samlPrepare getACS) ;;
       log "Redirecting to Identity Provider with SAML request." ;;
       ret (AuthenticationResult.RedirectTo
              (prepare_redirect response)
              (Some {| requestId := Some (id response);
                       nextURL := Some (getBasePath request ++ url_path request);
                       accessToken := None;
                       refreshToken := None |})))
      (fun err =>
         log ("Failed to initiate SAML handshake: " ++ message_of err) ;;
         ret (AuthenticationResult.Failed err)).

(** [authenticateViaHeader(request)]: the result and [headerNotRecognized]
    ([false] where the source leaves the property out). *)
Definition authenticateViaHeader : M (AuthenticationResult.t * bool) :=
  log "Trying to authenticate via header." ;;
  request <- getRequest ;;
  let authorization := headers_authorization request in
  if not_str authorization then
    log "Authorization header is not presented." ;;
    ret (AuthenticationResult.NotHandled, false)
  else
    let authenticationSchema :=
      hd "" (split_whitespace (value_of authorization)) in
    if negb (toLowerCase authenticationSchema =? "bearer") then
      log ("Unsupported authentication schema: " ++ authenticationSchema) ;;
      ret (AuthenticationResult.NotHandled, true)
    else
      try_catch
        (user <- await_callWithRequest "shield.authenticate" ;;
         log "Request has been authenticated via header." ;;
         ret (AuthenticationResult.Succeeded user None, false))
        (fun err =>
           log ("Failed to authenticate request via header: " ++ message_of err) ;;
           ret (AuthenticationResult.Failed err, false)).

(** [authenticateViaPayload(request, state)]. *)
Definition authenticateViaPayload (state : option ProviderState)
  : M AuthenticationResult.t :=
  log "Trying to authenticate via SAML response payload." ;;
  request <- getRequest ;;
  if negb (truthy (isSAMLResponsePayload (payload request))) then
    log "SAML response payload is not found." ;;
    ret AuthenticationResult.NotHandled
  else
    let '(stateRequestId, stateRedirectURL) :=
      match state with
      | Some st => (requestId st, nextURL st)
      | None => (Some "", Some "")
      end in
    if match state with Some _ => true | None => false end
       && (not_str stateRequestId || not_str stateRedirectURL)
    then
      let message :=
        "SAML response state does not have corresponding request id or redirect URL." in
      log message ;;
      ret (AuthenticationResult.Failed (Boom_badRequest message))
    else
      (if negb (not_str stateRequestId) then
         log "Authentication has been previously initiated by Kibana."
       else
         log "Authentication has been initiated by Identity Provider.") ;;
      try_catch
        (response <- await_callWithInternalUser
                       (shield_samlAuthenticate
                          (if negb (not_str stateRequestId)
                           then [value_of stateRequestId] else [])
                          (get (payload request) "SAMLResponse")) ;;
         log "Request has been authenticated via SAML response." ;;
         ret (AuthenticationResult.RedirectTo
                (or_str stateRedirectURL (basePath options ++ "/"))
                (Some {| requestId := None;
                         nextURL := None;
                         accessToken := Some (access_token response);
                         refreshToken := Some (refresh_token response) |})))
        (fun err =>
           log ("Failed to authenticate request via SAML response: "
                  ++ message_of err) ;;
           ret (AuthenticationResult.Failed err)).

(** [authenticateViaState(request, { accessToken })]. *)
Definition authenticateViaState (state : ProviderState)
  : M AuthenticationResult.t :=
  log "Trying to authenticate via state." ;;
  if not_str (accessToken state) then
    log "Access token is not found in state." ;;
    ret AuthenticationResult.NotHandled
  else
    set_authorization ("Bearer " ++ value_of (accessToken state)) ;;
    try_catch
      (user <- await_callWithRequest "shield.authenticate" ;;
       log "Request has been authenticated via state." ;;
       ret (AuthenticationResult.Succeeded user None))
      (fun err =>
         log ("Failed to authenticate request via state: " ++ message_of err) ;;
         delete_authorization ;;
         ret (AuthenticationResult.Failed err)).

(** [authenticateViaRefreshToken(request, { refreshToken })]. *)
Definition authenticateViaRefreshToken (state : ProviderState)
  : M AuthenticationResult.t :=
  log "Trying to refresh access token." ;;
  if not_str (refreshToken state) then
    log "Refresh token is not found in state." ;;
    ret AuthenticationResult.NotHandled
  else
    try_catch
      (response <- await_callWithInternalUser
                     (shield_getAccessToken
                        "refresh_token" (value_of (refreshToken state))) ;;
       let newAccessToken := access_token response in
       let newRefreshToken := refresh_token response in
       log "Access token has been successfully refreshed." ;;
       set_authorization ("Bearer " ++ newAccessToken) ;;
       user <- await_callWithRequest "shield.authenticate" ;;
       log "Request has been authenticated via refreshed token." ;;
       ret (AuthenticationResult.Succeeded
              user
              (Some {| requestId := None;
                       nextURL := None;
                       accessToken := Some newAccessToken;
                       refreshToken := Some newRefreshToken |})))
      (fun err =>
         log ("Failed to refresh access token: " ++ message_of err) ;;
         delete_authorization ;;
         if strict_eq_num (getErrorStatusCode (JObj err)) 400 then
           request <- getRequest ;;
           if canRedirectRequest request then
             log "Both access and refresh tokens are expired. Re-initiating SAML handshake." ;;
             authenticateViaHandshake
           else
             ret (AuthenticationResult.Failed
                    (Boom_badRequest "Both access and refresh tokens are expired."))
         else
           ret (AuthenticationResult.Failed err)).

(** [authenticate(request, state)]. *)
Definition authenticate (state : option ProviderState)
  : M AuthenticationResult.t :=
  request <- getRequest ;;
  log ("Trying to authenticate user request to " ++ url_path request ++ ".") ;;
  viaHeader <- authenticateViaHeader ;;
  let '(authenticationResult, headerNotRecognized) := viaHeader in
  if headerNotRecognized then
    ret authenticationResult
  else
    authenticationResult <-
      match state with
      | Some st =>
          if AuthenticationResult.notHandled authenticationResult then
            authenticationResult <- authenticateViaState st ;;
            if AuthenticationResult.failed authenticationResult
               && truthy (isAccessTokenExpiredError
                            (AuthenticationResult.error authenticationResult))
            then authenticateViaRefreshToken st
            else ret authenticationResult
          else ret authenticationResult
      | None => ret authenticationResult
      end ;;
    authenticationResult <-
      (if AuthenticationResult.notHandled authenticationResult then
         authenticateViaPayload state
       else ret authenticationResult) ;;
    if AuthenticationResult.notHandled authenticationResult then
      authenticateViaHandshake
    else
      ret authenticationResult.

(** [state!.field]: the non-null assertion is erased at run time; the
    provider reaches it only with a state. *)
Definition bang {A} (field : ProviderState -> option A)
           (state : option ProviderState) : option A :=
  match state with
  | Some st => field st
  | None => None
  end.

(** [deauthenticate(request, state)]. *)
Definition deauthenticate (state : option ProviderState)
  : M DeauthenticationResult.t :=
  request <- getRequest ;;
  log ("Trying to deauthenticate user via " ++ url_path request ++ ".") ;;
  if match state with
     | None => true
     | Some st => not_str (accessToken st)
     end
     && negb (truthy (isSAMLRequestQuery (query request)))
  then
    log "There is neither access token nor SAML session to invalidate." ;;
    ret DeauthenticationResult.NotHandled
  else
    logoutArgs <-
      (if truthy (isSAMLRequestQuery (query request)) then
         log "Logout has been initiated by the Identity Provider." ;;
         ret (shield_samlInvalidate
                (if negb (not_str (url_search request))
                 then slice_1 (value_of (url_search request))
                 else "")
                getACS)
       else
         log "Logout has been initiated by the user." ;;
         ret (shield_samlLogout (bang accessToken state)
                                (bang refreshToken state))) ;;
    try_catch
      (response <- await_callWithInternalUser logoutArgs ;;
       log "User session has been successfully invalidated." ;;
       match redirect response with
       | Some target =>
           log "Redirecting user to Identity Provider to complete logout." ;;
           ret (DeauthenticationResult.RedirectTo target)
       | None =>
           ret (DeauthenticationResult.RedirectTo "/logged_out")
       end)
      (fun err =>
         log ("Failed to deauthenticate user: " ++ message_of err) ;;
         ret (DeauthenticationResult.Failed err)).

(** The value of [logoutArgs] in [deauthenticate]: [samlInvalidate] for a
    request with a [SAMLRequest] query, [samlLogout] otherwise. *)
Definition logoutArgs_of (state : option ProviderState) (request : Request)
  : InternalCall LogoutResponse :=
  if truthy (isSAMLRequestQuery (query request)) then
    shield_samlInvalidate
      (if negb (not_str (url_search request))
       then slice_1 (value_of (url_search request))
       else "")
      getACS
  else
    shield_samlLogout (bang accessToken state) (bang refreshToken state).

(** [deauthenticate] goes past its first test and calls the backend. *)
Definition reaches_backend (state : option ProviderState) (request : Request)
  : bool :=
  negb (match state with
        | None => true
        | Some st => not_str (accessToken st)
        end
        && negb (truthy (isSAMLRequestQuery (query request)))).

(** The [try] block of the refresh strategy throws [err], leaving the backend
    in state [es] after the calls [made]: either [getAccessToken] is rejected,
    or it answers and the request that carries the new access token is
    rejected. *)
Definition refresh_throws (state : ProviderState) (w : World)
           (err : Error) (es : ES) (made : list BackendCall) : Prop :=
  let refresh :=
    shield_getAccessToken "refresh_token" (value_of (refreshToken state)) in
  (callWithInternalUser _ refresh (backend w) = (inl err, es)
   /\ made = [AsInternalUser refresh])
  \/ (exists response es1,
        let retried :=
          with_authorization
            (Some ("Bearer " ++ access_token response)) (request w) in
        callWithInternalUser _ refresh (backend w) = (inr response, es1)
        /\ callWithRequest retried "shield.authenticate" es1 = (inl err, es)
        /\ made = [AsInternalUser refresh; AsUser retried "shield.authenticate"]).

End Provider.

Arguments World : clear implicits.
Arguments M : clear implicits.

Notation "x <- m ;; k" := (bind m (fun x => k))
  (at level 61, m at next level, right associativity).
Notation "m ;; k" := (bind m (fun _ => k))
  (at level 61, right associativity).

(* ===================================================================== *)
(** ** A scripted backend and concrete requests *)
(* ===================================================================== *)

Module Scenario.

(** The Kibana helpers, for errors of the Elasticsearch client and for Boom
    errors. *)
Definition statusCodeOf (error : JsVal) : JsVal :=
  if truthy (get error "isBoom")
  then get (get error "output") "statusCode"
  else get error "statusCode".

Definition badRequest (msg : string) : Error :=
  [("isBoom", JBool true);
   ("message", JStr msg);
   ("output", JObj [("statusCode", JNum 400)])].

Definition browser : Imports :=
  {| getErrorStatusCode := statusCodeOf;
     canRedirectRequest := fun _ => true;
     Boom_badRequest := badRequest |}.

Definition ajax : Imports :=
  {| getErrorStatusCode := statusCodeOf;
     canRedirectRequest := fun _ => false;
     Boom_badRequest := badRequest |}.

Definition kibana : ProviderOptions :=
  {| protocol := "https"; hostname := "kibana.local"; port := 5601;
     basePath := "/kbn" |}.

Definition esError (status : Z) (msg : string) : Error :=
  [("statusCode", JNum status); ("message", JStr msg)].

Definition user : JsVal := JObj [("username", JStr "elastic")].

(** A backend that counts the calls it has answered and answers from a
    script: [asUser] sees the [Authorization] value of the request. *)
Record Script : Type := {
  asUser : option string -> Error + JsVal;
  asInternalUser : forall R, InternalCall R -> Error + R
}.

Definition scripted (script : Script) : Cluster nat :=
  {| callWithRequest := fun request _ n =>
       (asUser script (headers_authorization request), S n);
     callWithInternalUser := fun R call n =>
       (asInternalUser script R call, S n) |}.

(** Privileged calls that all succeed, with fixed answers. *)
Definition internal_ok (R : Type) (call : InternalCall R) : Error + R :=
  match call in InternalCall T return Error + T with
  | shield_samlPrepare _ =>
      inr {| id := "req-1"; prepare_redirect := "https://idp/sso" |}
  | shield_samlAuthenticate _ _ =>
      inr {| access_token := "A"; refresh_token := "R" |}
  | shield_getAccessToken _ _ =>
      inr {| access_token := "A2"; refresh_token := "R2" |}
  | shield_samlLogout _ _ => inr {| redirect := None |}
  | shield_samlInvalidate _ _ => inr {| redirect := Some "https://idp/slo" |}
  end.

(** The same, but every refresh is rejected with [400]. *)
Definition internal_refresh_rejected (R : Type) (call : InternalCall R)
  : Error + R :=
  match call in InternalCall T return Error + T with
  | shield_getAccessToken _ _ => inl (esError 400 "invalid_grant")
  | other => internal_ok _ other
  end.

(** Accepts the access token ["A"] and nothing else. *)
Definition accepts_A : Script :=
  {| asUser := fun authorization =>
       match authorization with
       | Some "Bearer A" => inr user
       | _ => inl (esError 401 "unauthorized")
       end;
     asInternalUser := internal_ok |}.

(** Rejects every access token with [403]. *)
Definition forbids : Script :=
  {| asUser := fun _ => inl (esError 403 "forbidden");
     asInternalUser := internal_ok |}.

(** Every access token has expired and the refresh token is spent. *)
Definition all_expired : Script :=
  {| asUser := fun _ => inl (esError 401 "unauthorized");
     asInternalUser := internal_refresh_rejected |}.

Definition get_home (authorization : option string) : Request :=
  {| headers_authorization := authorization;
     payload := JUndefined;
     query := JObj [];
     url_path := "/app/home";
     url_search := None;
     getBasePath := "/kbn" |}.

Definition post_acs : Request :=
  {| headers_authorization := None;
     payload := JObj [("SAMLResponse", JStr "PHNhbWw+")];
     query := JObj [];
     url_path := "/api/security/v1/saml";
     url_search := None;
     getBasePath := "/kbn" |}.

Definition get_logout (q : JsVal) (search : option string) : Request :=
  {| headers_authorization := None;
     payload := JUndefined;
     query := q;
     url_path := "/logout";
     url_search := search;
     getBasePath := "/kbn" |}.

Definition session : ProviderState :=
  {| requestId := None; nextURL := None;
     accessToken := Some "A"; refreshToken := Some "R" |}.

(** A state with a refresh token and no access token. *)
Definition refresh_only : ProviderState :=
  {| requestId := None; nextURL := None;
     accessToken := None; refreshToken := Some "R" |}.

Definition handshake : ProviderState :=
  {| requestId := Some "req-1"; nextURL := Some "/kbn/app/home";
     accessToken := None; refreshToken := None |}.

Definition slo_request : Request :=
  get_logout (JObj [("SAMLRequest", JStr "PHNsbz4=")])
             (Some "?SAMLRequest=PHNsbz4%3D&SigAlg=rsa-sha256").

(** A fresh world: nothing called, nothing logged. *)
Definition fresh (r : Request) : World nat := mkWorld r 0 [] [].

End Scenario.

(* ===================================================================== *)
(** ** What a caller can observe of a run *)
(* ===================================================================== *)

(** The endpoint of a backend call, without its arguments. *)
Inductive Endpoint : Type :=
| Authenticate
| SamlPrepare
| SamlAuthenticate
| GetAccessToken
| SamlLogout
| SamlInvalidate.

Definition endpoint_of (c : BackendCall) : Endpoint :=
  match c with
  | AsUser _ _ => Authenticate
  | AsInternalUser (shield_samlPrepare _) => SamlPrepare
  | AsInternalUser (shield_samlAuthenticate _ _) => SamlAuthenticate
  | AsInternalUser (shield_getAccessToken _ _) => GetAccessToken
  | AsInternalUser (shield_samlLogout _ _) => SamlLogout
  | AsInternalUser (shield_samlInvalidate _ _) => SamlInvalidate
  end.

(** The sequences of endpoints that one run of [authenticate] can call: the
    header strategy alone; or the state strategy, the refresh strategy with
    its retried request, and at the end the payload strategy or the
    handshake. *)
Definition authenticate_sequences : list (list Endpoint) :=
  [ [];
    [Authenticate];
    [SamlAuthenticate];
    [SamlPrepare];
    [Authenticate; SamlAuthenticate];
    [Authenticate; SamlPrepare];
    [Authenticate; GetAccessToken];
    [Authenticate; GetAccessToken; SamlPrepare];
    [Authenticate; GetAccessToken; Authenticate];
    [Authenticate; GetAccessToken; Authenticate; SamlPrepare] ].

(** [c] is the letter [lower] or its capital [upper]. *)
Definition is_letter (lower upper c : ascii) : bool :=
  (c =? lower)%char || (c =? upper)%char.

(** [s] spells [bearer] in upper and lower case ASCII letters. *)
Definition spells_bearer (s : string) : bool :=
  match s with
  | String c1 (String c2 (String c3 (String c4 (String c5 (String c6 EmptyString))))) =>
      is_letter "b" "B" c1 && is_letter "e" "E" c2 && is_letter "a" "A" c3
      && is_letter "r" "R" c4 && is_letter "e" "E" c5 && is_letter "r" "R" c6
  | _ => false
  end.

(** No character of [s] is whitespace. *)
Fixpoint no_whitespace (s : string) : bool :=
  match s with
  | EmptyString => true
  | String c s' => negb (is_whitespace c) && no_whitespace s'
  end.

(** [s] is empty or begins with a whitespace character. *)
Definition at_whitespace (s : string) : bool :=
  match s with
  | EmptyString => true
  | String c _ => is_whitespace c
  end.

(** The [Authorization] header carries the scheme [bearer]: it is presented
    and the header strategy would recognise it. *)
Definition carries_bearer (h : option string) : bool :=
  negb (not_str h)
  && (toLowerCase (hd "" (split_whitespace (value_of h))) =? "bearer").

(** The first message of each strategy, in the order in which
    [authenticate] lists the strategies. *)
Definition strategy_starts : list string :=
  ["Trying to authenticate via header.";
   "Trying to authenticate via state.";
   "Trying to refresh access token.";
   "Trying to authenticate via SAML response payload.";
   "Trying to initiate SAML handshake."].

(** The strategies that have logged their first message, in the order of the
    log. *)
Definition strategies_started (entries : list LogEntry) : list string :=
  filter (fun m => existsb (String.eqb m) strategy_starts) (map snd entries).

(** [xs] can be had from [ys] by dropping elements. *)
Fixpoint is_subsequence (xs ys : list string) : bool :=
  match ys with
  | [] => match xs with [] => true | _ :: _ => false end
  | y :: ys' =>
      match xs with
      | [] => true
      | x :: xs' =>
          if x =? y then is_subsequence xs' ys' else is_subsequence xs ys'
      end
  end.

(** More scripted backends and requests. *)
Module Cases.

(** Accepts every access token. *)
Definition accepts_all : Scenario.Script :=
  {| Scenario.asUser := fun _ => inr Scenario.user;
     Scenario.asInternalUser := Scenario.internal_ok |}.

(** Accepts the refreshed access token ["A2"] and nothing else. *)
Definition accepts_A2 : Scenario.Script :=
  {| Scenario.asUser := fun authorization =>
       match authorization with
       | Some "Bearer A2" => inr Scenario.user
       | _ => inl (Scenario.esError 401 "unauthorized")
       end;
     Scenario.asInternalUser := Scenario.internal_ok |}.

(** Every access token has expired. *)
Definition expired : Scenario.Script :=
  {| Scenario.asUser := fun _ => inl (Scenario.esError 401 "unauthorized");
     Scenario.asInternalUser := Scenario.internal_ok |}.

(** An established session whose refresh token is gone. *)
Definition access_only : ProviderState :=
  {| requestId := None; nextURL := None;
     accessToken := Some "A"; refreshToken := None |}.

End Cases.

(* ===================================================================== *)
(** ** Properties *)
(* ===================================================================== *)

Ltac unfold_monad :=
  unfold try_catch, bind, ret, log, getRequest, set_authorization,
    delete_authorization, await_callWithRequest, await_callWithInternalUser
    in *.

Ltac unfold_provider :=
  unfold authenticate, deauthenticate, authenticateViaHeader,
    authenticateViaState, authenticateViaRefreshToken, authenticateViaPayload,
    authenticateViaHandshake in *;
  unfold_monad.

(** Two descriptions of the same world: the worlds differ only in how the
    histories are bracketed. *)
Ltac same_world :=
  unfold with_logs, with_header, answered; cbn;
  rewrite <- ?app_assoc; cbn; reflexivity.

Lemma split_whitespace_leading (c : ascii) (rest : string) :
  is_whitespace c = true ->
  hd "" (split_whitespace (String c rest)) = "".
Proof.
  intros Hc. revert c Hc.
  induction rest as [| c' rest IH]; intros c Hc; simpl; rewrite Hc.
  - reflexivity.
  - destruct (is_whitespace c') eqn:Hc'; [| reflexivity].
    specialize (IH c' Hc'). simpl in IH. rewrite Hc' in IH. exact IH.
Qed.

(** [split] never returns an empty array, so its element [0] is defined. *)
Lemma split_whitespace_nonempty (s : string) : split_whitespace s <> [].
Proof.
  induction s as [| c s IH]; cbn; [discriminate |].
  destruct (is_whitespace c).
  - destruct s as [| c' s']; [discriminate |].
    destruct (is_whitespace c'); [exact IH | discriminate].
  - destruct (split_whitespace s); discriminate.
Qed.

Example split_whitespace_leading_space :
  split_whitespace " Bearer x" = [""; "Bearer"; "x"].
Proof. reflexivity. Qed.

Example split_whitespace_runs :
  split_whitespace "Basic   dXNlcg== " = ["Basic"; "dXNlcg=="; ""].
Proof. reflexivity. Qed.

Lemma truthy_js_and (a b : JsVal) :
  truthy (js_and a b) = truthy a && truthy b.
Proof. unfold js_and. destruct (truthy a) eqn:E; [reflexivity | exact E]. Qed.

Lemma truthy_js_or (a b : JsVal) :
  truthy (js_or a b) = truthy a || truthy b.
Proof. unfold js_or. destruct (truthy a) eqn:E; [exact E | reflexivity]. Qed.

Lemma strict_eq_num_true (v : JsVal) (n : Z) :
  strict_eq_num v n = true <-> v = JNum n.
Proof.
  destruct v; cbn; try (split; discriminate).
  rewrite Z.eqb_eq. split; [now intros -> | now intros [= ->]].
Qed.

Lemma strict_eq_str_true (v : JsVal) (s : string) :
  strict_eq_str v s = true <-> v = JStr s.
Proof.
  destruct v; cbn; try (split; discriminate).
  rewrite String.eqb_eq. split; [now intros -> | now intros [= ->]].
Qed.

(** A truthy value is neither [undefined] nor [null]: its properties can be
    read. *)
Lemma get_strict_truthy (v : JsVal) (k : string) :
  truthy v = true -> get_strict v k = Some (get v k).
Proof. destruct v; cbn; (discriminate || reflexivity). Qed.

(** Only an object has a property that is not [undefined]. *)
Lemma get_strict_defined (v : JsVal) (k : string) (x : JsVal) :
  get_strict v k = Some x -> x <> JUndefined ->
  truthy v = true /\ get v k = x.
Proof.
  destruct v; cbn; intros H Hx; try discriminate;
    injection H as H; try (symmetry in H; contradiction).
  split; [reflexivity | exact H].
Qed.

Section Properties.

Context {ES : Type} {client : Cluster ES} {imports : Imports}.
Variable options : ProviderOptions.

(** The header strategy on a header that is presented with a scheme other
    than [bearer]: three log entries, [NotHandled], and nothing else. *)
Lemma authenticate_unrecognized_scheme
      (w : World ES) (state : option ProviderState) (authorization : string) :
  headers_authorization (request w) = Some authorization ->
  authorization <> "" ->
  toLowerCase (hd "" (split_whitespace authorization)) <> "bearer" ->
  authenticate options state w
  = (inr AuthenticationResult.NotHandled,
     with_logs w
       ["Trying to authenticate user request to " ++ url_path (request w) ++ ".";
        "Trying to authenticate via header.";
        "Unsupported authentication schema: "
          ++ hd "" (split_whitespace authorization)]).
Proof.
  intros Hh Hne Hscheme.
  unfold_provider. simpl. rewrite Hh. simpl.
  destruct (String.eqb_spec authorization "") as [-> | _]; [congruence |].
  destruct (String.eqb_spec
              (toLowerCase (hd "" (split_whitespace authorization))) "bearer")
    as [E | _]; [congruence |].
  same_world.
Qed.

Lemma with_logs_app (w : World ES) (a b : list string) :
  with_logs (with_logs w a) b = with_logs w (a ++ b).
Proof.
  unfold with_logs. cbn. rewrite map_app, app_assoc. reflexivity.
Qed.

(** *** The strategies, one outcome at a time *)

Lemma authenticateViaHeader_not_presented (w : World ES) :
  not_str (headers_authorization (request w)) = true ->
  authenticateViaHeader w
  = (inr (AuthenticationResult.NotHandled, false),
     with_logs w ["Trying to authenticate via header.";
                  "Authorization header is not presented."]).
Proof.
  intros H. unfold_provider. cbn. rewrite H. cbn. same_world.
Qed.

Lemma authenticateViaState_no_token (st : ProviderState) (w : World ES) :
  not_str (accessToken st) = true ->
  authenticateViaState st w
  = (inr AuthenticationResult.NotHandled,
     with_logs w ["Trying to authenticate via state.";
                  "Access token is not found in state."]).
Proof.
  intros H. unfold_provider. cbn. rewrite H. cbn. same_world.
Qed.

Lemma authenticateViaState_accepted
      (st : ProviderState) (w : World ES) (user : JsVal) (es : ES) :
  not_str (accessToken st) = false ->
  callWithRequest
    (with_authorization (Some ("Bearer " ++ value_of (accessToken st))) (request w))
    "shield.authenticate" (backend w) = (inr user, es) ->
  authenticateViaState st w
  = (inr (AuthenticationResult.Succeeded user None),
     with_logs
       (answered
          (with_header w (Some ("Bearer " ++ value_of (accessToken st))))
          (AsUser (with_authorization
                     (Some ("Bearer " ++ value_of (accessToken st))) (request w))
                  "shield.authenticate")
          es)
       ["Trying to authenticate via state.";
        "Request has been authenticated via state."]).
Proof.
  intros H Hcall. unfold_provider. cbn in Hcall |- *. rewrite H. cbn.
  rewrite Hcall. cbn. same_world.
Qed.

Lemma authenticateViaState_rejected
      (st : ProviderState) (w : World ES) (err : Error) (es : ES) :
  not_str (accessToken st) = false ->
  callWithRequest
    (with_authorization (Some ("Bearer " ++ value_of (accessToken st))) (request w))
    "shield.authenticate" (backend w) = (inl err, es) ->
  authenticateViaState st w
  = (inr (AuthenticationResult.Failed err),
     with_logs
       (with_header
          (answered
             w
             (AsUser (with_authorization
                        (Some ("Bearer " ++ value_of (accessToken st))) (request w))
                     "shield.authenticate")
             es)
          None)
       ["Trying to authenticate via state.";
        "Failed to authenticate request via state: " ++ message_of err]).
Proof.
  intros H Hcall. unfold_provider. cbn in Hcall |- *. rewrite H. cbn.
  rewrite Hcall. cbn. same_world.
Qed.

Lemma authenticateViaHandshake_ajax (w : World ES) :
  canRedirectRequest (request w) = false ->
  authenticateViaHandshake options w
  = (inr AuthenticationResult.NotHandled,
     with_logs w ["Trying to initiate SAML handshake.";
                  "SAML handshake can not be initiated by AJAX requests."]).
Proof.
  intros H. unfold_provider. cbn. rewrite H. cbn. same_world.
Qed.

Lemma authenticateViaHandshake_browser (w : World ES) :
  canRedirectRequest (request w) = true ->
  authenticateViaHandshake options w
  = match callWithInternalUser _ (shield_samlPrepare (getACS options)) (backend w) with
    | (inr response, es) =>
        (inr (AuthenticationResult.RedirectTo
                (prepare_redirect response)
                (Some {| requestId := Some (id response);
                         nextURL := Some (getBasePath (request w)
                                            ++ url_path (request w));
                         accessToken := None;
                         refreshToken := None |})),
         with_logs
           (answered w (AsInternalUser (shield_samlPrepare (getACS options))) es)
           ["Trying to initiate SAML handshake.";
            "Redirecting to Identity Provider with SAML request."])
    | (inl err, es) =>
        (inr (AuthenticationResult.Failed err),
         with_logs
           (answered w (AsInternalUser (shield_samlPrepare (getACS options))) es)
           ["Trying to initiate SAML handshake.";
            "Failed to initiate SAML handshake: " ++ message_of err])
    end.
Proof.
  intros H. unfold_provider. cbn. rewrite H. cbn.
  destruct (callWithInternalUser _ _ _) as [[err | response] es]; cbn; same_world.
Qed.

Lemma authenticateViaPayload_no_payload
      (state : option ProviderState) (w : World ES) :
  truthy (isSAMLResponsePayload (payload (request w))) = false ->
  authenticateViaPayload options state w
  = (inr AuthenticationResult.NotHandled,
     with_logs w ["Trying to authenticate via SAML response payload.";
                  "SAML response payload is not found."]).
Proof.
  intros H. unfold_provider. cbn. rewrite H. cbn. same_world.
Qed.

Lemma authenticateViaPayload_corrupt_state
      (st : ProviderState) (w : World ES) :
  truthy (isSAMLResponsePayload (payload (request w))) = true ->
  not_str (requestId st) || not_str (nextURL st) = true ->
  authenticateViaPayload options (Some st) w
  = (inr (AuthenticationResult.Failed
            (Boom_badRequest
               "SAML response state does not have corresponding request id or redirect URL.")),
     with_logs w
       ["Trying to authenticate via SAML response payload.";
        "SAML response state does not have corresponding request id or redirect URL."]).
Proof.
  intros Hp Hs. unfold_provider. cbn. rewrite Hp. cbn. rewrite Hs. cbn.
  same_world.
Qed.

Lemma authenticateViaPayload_idp_initiated (w : World ES) :
  truthy (isSAMLResponsePayload (payload (request w))) = true ->
  authenticateViaPayload options None w
  = match callWithInternalUser
            _ (shield_samlAuthenticate [] (get (payload (request w)) "SAMLResponse"))
            (backend w) with
    | (inr response, es) =>
        (inr (AuthenticationResult.RedirectTo
                (basePath options ++ "/")
                (Some {| requestId := None;
                         nextURL := None;
                         accessToken := Some (access_token response);
                         refreshToken := Some (refresh_token response) |})),
         with_logs
           (answered
              w
              (AsInternalUser
                 (shield_samlAuthenticate
                    [] (get (payload (request w)) "SAMLResponse")))
              es)
           ["Trying to authenticate via SAML response payload.";
            "Authentication has been initiated by Identity Provider.";
            "Request has been authenticated via SAML response."])
    | (inl err, es) =>
        (inr (AuthenticationResult.Failed err),
         with_logs
           (answered
              w
              (AsInternalUser
                 (shield_samlAuthenticate
                    [] (get (payload (request w)) "SAMLResponse")))
              es)
           ["Trying to authenticate via SAML response payload.";
            "Authentication has been initiated by Identity Provider.";
            "Failed to authenticate request via SAML response: " ++ message_of err])
    end.
Proof.
  intros Hp. unfold_provider. cbn. rewrite Hp. cbn.
  destruct (callWithInternalUser _ _ _) as [[err | response] es]; cbn; same_world.
Qed.

Lemma authenticateViaPayload_sp_initiated
      (st : ProviderState) (w : World ES) :
  truthy (isSAMLResponsePayload (payload (request w))) = true ->
  not_str (requestId st) = false ->
  not_str (nextURL st) = false ->
  authenticateViaPayload options (Some st) w
  = match callWithInternalUser
            _ (shield_samlAuthenticate
                 [value_of (requestId st)]
                 (get (payload (request w)) "SAMLResponse"))
            (backend w) with
    | (inr response, es) =>
        (inr (AuthenticationResult.RedirectTo
                (value_of (nextURL st))
                (Some {| requestId := None;
                         nextURL := None;
                         accessToken := Some (access_token response);
                         refreshToken := Some (refresh_token response) |})),
         with_logs
           (answered
              w
              (AsInternalUser
                 (shield_samlAuthenticate
                    [value_of (requestId st)]
                    (get (payload (request w)) "SAMLResponse")))
              es)
           ["Trying to authenticate via SAML response payload.";
            "Authentication has been previously initiated by Kibana.";
            "Request has been authenticated via SAML response."])
    | (inl err, es) =>
        (inr (AuthenticationResult.Failed err),
         with_logs
           (answered
              w
              (AsInternalUser
                 (shield_samlAuthenticate
                    [value_of (requestId st)]
                    (get (payload (request w)) "SAMLResponse")))
              es)
           ["Trying to authenticate via SAML response payload.";
            "Authentication has been previously initiated by Kibana.";
            "Failed to authenticate request via SAML response: " ++ message_of err])
    end.
Proof.
  intros Hp Hid Hurl. unfold_provider. cbn. rewrite Hp. cbn.
  rewrite Hid, Hurl. cbn.
  assert (Hor : forall d, or_str (nextURL st) d = value_of (nextURL st)).
  { intros d. destruct (nextURL st) as [[| c u] |]; cbn in *;
      (discriminate || reflexivity). }
  destruct (callWithInternalUser _ _ _) as [[err | response] es]; cbn;
    rewrite ?Hor; same_world.
Qed.

(** *** [authenticate] when the header strategy does not handle the request *)

Lemma authenticate_without_header
      (state : option ProviderState) (w : World ES) :
  not_str (headers_authorization (request w)) = true ->
  authenticate options state w
  = (authenticationResult <-
       match state with
       | Some st =>
           authenticationResult <- authenticateViaState st ;;
           if AuthenticationResult.failed authenticationResult
              && truthy (isAccessTokenExpiredError
                           (AuthenticationResult.error authenticationResult))
           then authenticateViaRefreshToken options st
           else ret authenticationResult
       | None => ret AuthenticationResult.NotHandled
       end ;;
     authenticationResult <-
       (if AuthenticationResult.notHandled authenticationResult
        then authenticateViaPayload options state
        else ret authenticationResult) ;;
     if AuthenticationResult.notHandled authenticationResult
     then authenticateViaHandshake options
     else ret authenticationResult)
      (with_logs w
         ["Trying to authenticate user request to " ++ url_path (request w) ++ ".";
          "Trying to authenticate via header.";
          "Authorization header is not presented."]).
Proof.
  intros H. unfold authenticate.
  unfold bind at 1. unfold getRequest at 1.
  unfold bind at 1. unfold log at 1.
  unfold bind at 1.
  rewrite authenticateViaHeader_not_presented by exact H.
  rewrite with_logs_app. cbn [app].
  destruct state; reflexivity.
Qed.

Lemma authenticate_state_accepted
      (w : World ES) (st : ProviderState) (user : JsVal) (es : ES) :
  not_str (headers_authorization (request w)) = true ->
  not_str (accessToken st) = false ->
  callWithRequest
    (with_authorization (Some ("Bearer " ++ value_of (accessToken st))) (request w))
    "shield.authenticate" (backend w) = (inr user, es) ->
  authenticate options (Some st) w
  = (inr (AuthenticationResult.Succeeded user None),
     with_logs
       (answered
          (with_header w (Some ("Bearer " ++ value_of (accessToken st))))
          (AsUser (with_authorization
                     (Some ("Bearer " ++ value_of (accessToken st))) (request w))
                  "shield.authenticate")
          es)
       ["Trying to authenticate user request to " ++ url_path (request w) ++ ".";
        "Trying to authenticate via header.";
        "Authorization header is not presented.";
        "Trying to authenticate via state.";
        "Request has been authenticated via state."]).
Proof.
  intros Hheader Htoken Hcall.
  rewrite (authenticate_without_header (Some st) w Hheader).
  unfold bind.
  erewrite authenticateViaState_accepted; [| exact Htoken | exact Hcall].
  cbn. same_world.
Qed.

(** The one way from the state strategy to the refresh strategy: the access
    token of the state is rejected, and the classifier holds the error for an
    expired token.  Any other error ends [authenticate] with [Failed(err)]. *)
Lemma authenticate_state_rejected
      (w : World ES) (st : ProviderState) (err : Error) (es : ES) :
  not_str (headers_authorization (request w)) = true ->
  not_str (accessToken st) = false ->
  callWithRequest
    (with_authorization (Some ("Bearer " ++ value_of (accessToken st))) (request w))
    "shield.authenticate" (backend w) = (inl err, es) ->
  authenticate options (Some st) w
  = (if truthy (isAccessTokenExpiredError (JObj err)) then
       authenticationResult <- authenticateViaRefreshToken options st ;;
       authenticationResult <-
         (if AuthenticationResult.notHandled authenticationResult
          then authenticateViaPayload options (Some st)
          else ret authenticationResult) ;;
       if AuthenticationResult.notHandled authenticationResult
       then authenticateViaHandshake options
       else ret authenticationResult
     else
       ret (AuthenticationResult.Failed err))
      (with_logs
         (with_header
            (answered
               w
               (AsUser (with_authorization
                          (Some ("Bearer " ++ value_of (accessToken st)))
                          (request w))
                       "shield.authenticate")
               es)
            None)
         ["Trying to authenticate user request to " ++ url_path (request w) ++ ".";
          "Trying to authenticate via header.";
          "Authorization header is not presented.";
          "Trying to authenticate via state.";
          "Failed to authenticate request via state: " ++ message_of err]).
Proof.
  intros Hheader Htoken Hcall.
  rewrite (authenticate_without_header (Some st) w Hheader).
  match goal with
  | |- _ = _ ?caught => remember caught as w1 eqn:Hw1
  end.
  unfold bind at 1. unfold bind at 1.
  erewrite authenticateViaState_rejected; [| exact Htoken | exact Hcall].
  cbn [AuthenticationResult.failed AuthenticationResult.error andb].
  destruct (truthy (isAccessTokenExpiredError (JObj err))).
  - match goal with
    | |- context [authenticateViaRefreshToken options st ?w1'] =>
        replace w1' with w1 by (subst w1; same_world)
    end.
    reflexivity.
  - unfold ret. cbn [AuthenticationResult.notHandled].
    subst w1. same_world.
Qed.

(** *** Which calls a strategy can add *)

Section CallHistory.

Variable allowed : BackendCall -> bool.

Lemma adds_calls_silent {A} (m : M ES A) :
  (forall w, calls (snd (m w)) = calls w) -> adds_calls allowed m.
Proof.
  intros H w. exists []. rewrite H, app_nil_r. split; reflexivity.
Qed.

Lemma adds_calls_bind {A B} (m : M ES A) (k : A -> M ES B) :
  adds_calls allowed m -> (forall a, adds_calls allowed (k a)) ->
  adds_calls allowed (bind m k).
Proof.
  intros Hm Hk w. unfold bind.
  destruct (Hm w) as [new1 [E1 P1]].
  destruct (m w) as [[e | a] w1]; cbn in E1 |- *.
  - exists new1. split; assumption.
  - destruct (Hk a w1) as [new2 [E2 P2]].
    exists (new1 ++ new2)%list.
    rewrite E2, E1, app_assoc, forallb_app, P1, P2. split; reflexivity.
Qed.

Lemma adds_calls_try_catch {A} (body : M ES A) (handler : Error -> M ES A) :
  adds_calls allowed body -> (forall e, adds_calls allowed (handler e)) ->
  adds_calls allowed (try_catch body handler).
Proof.
  intros Hm Hk w. unfold try_catch.
  destruct (Hm w) as [new1 [E1 P1]].
  destruct (body w) as [[e | a] w1]; cbn in E1 |- *.
  - destruct (Hk e w1) as [new2 [E2 P2]].
    exists (new1 ++ new2)%list.
    rewrite E2, E1, app_assoc, forallb_app, P1, P2. split; reflexivity.
  - exists new1. split; assumption.
Qed.

Lemma adds_calls_asUser (endpoint : string) :
  (forall r, allowed (AsUser r endpoint) = true) ->
  adds_calls allowed (await_callWithRequest endpoint).
Proof.
  intros H w. unfold await_callWithRequest.
  destruct (callWithRequest _ _ _) as [answer es].
  exists [AsUser (request w) endpoint]. cbn. rewrite H. split; reflexivity.
Qed.

Lemma adds_calls_asInternalUser {R} (c : InternalCall R) :
  allowed (AsInternalUser c) = true ->
  adds_calls allowed (await_callWithInternalUser c).
Proof.
  intros H w. unfold await_callWithInternalUser.
  destruct (callWithInternalUser _ _ _) as [answer es].
  exists [AsInternalUser c]. cbn. rewrite H. split; reflexivity.
Qed.

End CallHistory.

(** Breaks a strategy into its steps; leaves the backend calls to the user. *)
Ltac adds_calls_steps :=
  repeat first
    [ apply adds_calls_bind
    | apply adds_calls_try_catch
    | apply adds_calls_silent; reflexivity
    | progress cbv zeta
    | match goal with |- forall _, _ => intro end
    | match goal with
      | |- adds_calls _ (if ?b then _ else _) => destruct b
      | |- adds_calls _ (match ?x with _ => _ end) => destruct x
      end ].

Lemma authenticateViaHeader_never_refreshes :
  adds_calls not_getAccessToken authenticateViaHeader.
Proof.
  unfold authenticateViaHeader. adds_calls_steps.
  apply adds_calls_asUser. reflexivity.
Qed.

Lemma authenticateViaPayload_never_refreshes (state : option ProviderState) :
  adds_calls not_getAccessToken (authenticateViaPayload options state).
Proof.
  unfold authenticateViaPayload. adds_calls_steps;
    apply adds_calls_asInternalUser; reflexivity.
Qed.

Lemma authenticateViaHandshake_never_refreshes :
  adds_calls not_getAccessToken (authenticateViaHandshake options).
Proof.
  unfold authenticateViaHandshake. adds_calls_steps.
  apply adds_calls_asInternalUser. reflexivity.
Qed.

Lemma authenticate_idp_initiated (w : World ES) :
  not_str (headers_authorization (request w)) = true ->
  truthy (isSAMLResponsePayload (payload (request w))) = true ->
  authenticate options None w
  = match callWithInternalUser
            _ (shield_samlAuthenticate [] (get (payload (request w)) "SAMLResponse"))
            (backend w) with
    | (inr response, es) =>
        (inr (AuthenticationResult.RedirectTo
                (basePath options ++ "/")
                (Some {| requestId := None;
                         nextURL := None;
                         accessToken := Some (access_token response);
                         refreshToken := Some (refresh_token response) |})),
         with_logs
           (answered
              w
              (AsInternalUser
                 (shield_samlAuthenticate
                    [] (get (payload (request w)) "SAMLResponse")))
              es)
           ["Trying to authenticate user request to "
              ++ url_path (request w) ++ ".";
            "Trying to authenticate via header.";
            "Authorization header is not presented.";
            "Trying to authenticate via SAML response payload.";
            "Authentication has been initiated by Identity Provider.";
            "Request has been authenticated via SAML response."])
    | (inl err, es) =>
        (inr (AuthenticationResult.Failed err),
         with_logs
           (answered
              w
              (AsInternalUser
                 (shield_samlAuthenticate
                    [] (get (payload (request w)) "SAMLResponse")))
              es)
           ["Trying to authenticate user request to "
              ++ url_path (request w) ++ ".";
            "Trying to authenticate via header.";
            "Authorization header is not presented.";
            "Trying to authenticate via SAML response payload.";
            "Authentication has been initiated by Identity Provider.";
            "Failed to authenticate request via SAML response: " ++ message_of err])
    end.
Proof.
  intros Hheader Hpayload.
  rewrite (authenticate_without_header None w Hheader).
  unfold bind, ret. cbn [AuthenticationResult.notHandled].
  erewrite authenticateViaPayload_idp_initiated; [| exact Hpayload].
  cbn [request backend with_logs].
  destruct (callWithInternalUser _ _ _) as [[err | response] es]; cbn;
    same_world.
Qed.

Lemma authenticate_corrupt_state (w : World ES) (st : ProviderState) :
  not_str (headers_authorization (request w)) = true ->
  not_str (accessToken st) = true ->
  truthy (isSAMLResponsePayload (payload (request w))) = true ->
  not_str (requestId st) || not_str (nextURL st) = true ->
  authenticate options (Some st) w
  = (inr (AuthenticationResult.Failed
            (Boom_badRequest
               "SAML response state does not have corresponding request id or redirect URL.")),
     with_logs w
       ["Trying to authenticate user request to " ++ url_path (request w) ++ ".";
        "Trying to authenticate via header.";
        "Authorization header is not presented.";
        "Trying to authenticate via state.";
        "Access token is not found in state.";
        "Trying to authenticate via SAML response payload.";
        "SAML response state does not have corresponding request id or redirect URL."]).
Proof.
  intros Hheader Htoken Hpayload Hstate.
  rewrite (authenticate_without_header (Some st) w Hheader).
  unfold bind, ret.
  rewrite (authenticateViaState_no_token st _ Htoken).
  cbn [AuthenticationResult.failed andb AuthenticationResult.notHandled].
  erewrite authenticateViaPayload_corrupt_state;
    [| exact Hpayload | exact Hstate].
  cbn [AuthenticationResult.notHandled]. rewrite !with_logs_app. reflexivity.
Qed.

Lemma authenticate_reaches_payload (w : World ES) (st : ProviderState) :
  not_str (headers_authorization (request w)) = true ->
  not_str (accessToken st) = true ->
  truthy (isSAMLResponsePayload (payload (request w))) = true ->
  authenticate options (Some st) w
  = authenticateViaPayload options (Some st)
      (with_logs w
         ["Trying to authenticate user request to " ++ url_path (request w) ++ ".";
          "Trying to authenticate via header.";
          "Authorization header is not presented.";
          "Trying to authenticate via state.";
          "Access token is not found in state."]).
Proof.
  intros Hheader Htoken Hpayload.
  rewrite (authenticate_without_header (Some st) w Hheader).
  unfold bind at 1. unfold bind at 1.
  rewrite (authenticateViaState_no_token st _ Htoken).
  cbn [AuthenticationResult.failed andb AuthenticationResult.notHandled].
  unfold ret at 1. rewrite with_logs_app. cbn [app].
  unfold bind at 1. cbn [AuthenticationResult.notHandled].
  set (w' := with_logs w _).
  assert (Hp' : truthy (isSAMLResponsePayload (payload (request w'))) = true)
    by exact Hpayload.
  destruct (not_str (requestId st) || not_str (nextURL st)) eqn:Hstate.
  - rewrite (authenticateViaPayload_corrupt_state st w' Hp' Hstate).
    reflexivity.
  - apply orb_false_iff in Hstate. destruct Hstate as [Hid Hurl].
    rewrite (authenticateViaPayload_sp_initiated st w' Hp' Hid Hurl).
    destruct (callWithInternalUser _ _ _) as [[err | response] es]; reflexivity.
Qed.

Lemma authenticateViaHandshake_keeps_request (w : World ES) :
  request (snd (authenticateViaHandshake options w)) = request w.
Proof.
  destruct (canRedirectRequest (request w)) eqn:H.
  - rewrite (authenticateViaHandshake_browser w H).
    destruct (callWithInternalUser _ _ _) as [[err | response] es]; reflexivity.
  - rewrite (authenticateViaHandshake_ajax w H). reflexivity.
Qed.

(** *** The header after a strategy that started without it *)

Ltac break_match :=
  match goal with
  | |- context [match ?x with _ => _ end] =>
      lazymatch x with
      | context [match _ with _ => _ end] => fail
      | _ => destruct x eqn:?
      end
  end.

Ltac header_absent_cases :=
  intros w Hw; unfold_monad; cbn;
  repeat (break_match; cbn);
  eexists; eexists; (split; [reflexivity |]); cbn; auto.

Lemma authenticateViaHandshake_leaves_header_absent :
  leaves_header_absent (authenticateViaHandshake options).
Proof. unfold authenticateViaHandshake. header_absent_cases. Qed.

Lemma authenticateViaPayload_leaves_header_absent (state : option ProviderState) :
  leaves_header_absent (authenticateViaPayload options state).
Proof. unfold authenticateViaPayload. header_absent_cases. Qed.

Lemma authenticateViaState_leaves_header_absent (st : ProviderState) :
  leaves_header_absent (authenticateViaState st).
Proof. unfold authenticateViaState. header_absent_cases. Qed.

Lemma authenticateViaRefreshToken_leaves_header_absent (st : ProviderState) :
  leaves_header_absent (authenticateViaRefreshToken options st).
Proof.
  unfold authenticateViaRefreshToken, authenticateViaHandshake.
  header_absent_cases.
Qed.

(** The last two steps of [authenticate], from a result [r] reached in a
    world where the header is absent unless [r] is [Succeeded]. *)
Lemma authenticate_tail_leaves_header_absent
      (state : option ProviderState) (r : AuthenticationResult.t) (w : World ES) :
  AuthenticationResult.succeeded r = true
  \/ headers_authorization (request w) = None ->
  exists result w',
    (authenticationResult <-
       (if AuthenticationResult.notHandled r
        then authenticateViaPayload options state
        else ret r) ;;
     if AuthenticationResult.notHandled authenticationResult
     then authenticateViaHandshake options
     else ret authenticationResult) w
    = (inr result, w')
    /\ (AuthenticationResult.succeeded result = true
        \/ headers_authorization (request w') = None).
Proof.
  intros Hr. unfold bind.
  destruct r as [| user st' | err | url st']; cbn [AuthenticationResult.notHandled];
    try (unfold ret; cbn; eexists; eexists; split; [reflexivity | exact Hr]).
  destruct Hr as [Hr | Hw]; [discriminate |].
  destruct (authenticateViaPayload_leaves_header_absent state w Hw)
    as (r2 & w2 & E2 & P2).
  rewrite E2.
  destruct r2 as [| user st' | err | url st']; cbn [AuthenticationResult.notHandled];
    try (unfold ret; eexists; eexists; split; [reflexivity | exact P2]).
  destruct P2 as [P2 | P2]; [discriminate |].
  exact (authenticateViaHandshake_leaves_header_absent w2 P2).
Qed.

(** Header neutrality, for every request whose header on entry is not the
    empty string: when [authenticate] returns [NotHandled] or [Failed], the
    header is what it was on entry. *)
Lemma header_neutrality_unless_empty
      (w : World ES) (state : option ProviderState) :
  headers_authorization (request w) <> Some "" ->
  exists result w',
    authenticate options state w = (inr result, w')
    /\ (AuthenticationResult.notHandled result
        || AuthenticationResult.failed result = true ->
        headers_authorization (request w')
        = headers_authorization (request w)).
Proof.
  intros Hnonempty.
  destruct (headers_authorization (request w)) as [h |] eqn:Hh.
  - (* a header with a value: only the header strategy runs *)
    unfold authenticate, authenticateViaHeader. unfold_monad. cbn.
    rewrite Hh. cbn.
    destruct (String.eqb_spec h "") as [-> | _]; [congruence |].
    destruct (negb _); cbn.
    + eexists; eexists; split; [reflexivity | intros _; exact Hh].
    + destruct (callWithRequest _ _ _) as [[err | user] es]; cbn;
        destruct state; cbn;
        eexists; eexists; (split; [reflexivity | intros _; exact Hh]).
  - (* no header *)
    assert (Hheader : not_str (headers_authorization (request w)) = true)
      by (rewrite Hh; reflexivity).
    rewrite (authenticate_without_header state w Hheader).
    set (w0 := with_logs w _).
    assert (Hw0 : headers_authorization (request w0) = None) by exact Hh.
    assert (Hend : forall result (w' : World ES),
               AuthenticationResult.succeeded result = true
               \/ headers_authorization (request w') = None ->
               AuthenticationResult.notHandled result
               || AuthenticationResult.failed result = true ->
               headers_authorization (request w') = None).
    { intros result w' [Hs | Hn] Hr; [| exact Hn].
      destruct result; discriminate. }
    unfold bind at 1.
    destruct state as [st |].
    + unfold bind at 1.
      destruct (authenticateViaState_leaves_header_absent st w0 Hw0)
        as (r1 & w1 & E1 & P1).
      rewrite E1.
      destruct (AuthenticationResult.failed r1
                && truthy (isAccessTokenExpiredError
                             (AuthenticationResult.error r1))) eqn:Hexpired.
      * assert (Hw1 : headers_authorization (request w1) = None).
        { destruct P1 as [P1 | P1]; [| exact P1].
          destruct r1; discriminate. }
        destruct (authenticateViaRefreshToken_leaves_header_absent st w1 Hw1)
          as (r2 & w2 & E2 & P2).
        rewrite E2.
        destruct (authenticate_tail_leaves_header_absent (Some st) r2 w2 P2)
          as (r3 & w3 & E3 & P3).
        exists r3, w3. split; [exact E3 | exact (Hend r3 w3 P3)].
      * unfold ret at 1.
        destruct (authenticate_tail_leaves_header_absent (Some st) r1 w1 P1)
          as (r3 & w3 & E3 & P3).
        exists r3, w3. split; [exact E3 | exact (Hend r3 w3 P3)].
    + unfold ret at 1.
      destruct (authenticate_tail_leaves_header_absent
                  None AuthenticationResult.NotHandled w0 (or_intror Hw0))
        as (r3 & w3 & E3 & P3).
      exists r3, w3. split; [exact E3 | exact (Hend r3 w3 P3)].
Qed.

(** *** The claims *)

(** C1, as amended.  When the header is not presented, the state holds an
    access token and the backend accepts it for user [user], [authenticate]
    returns [Succeeded(user)] without a new state, after one call as the
    user; the header injected for that call is still on the request
    afterwards: [request.headers.authorization] is ["Bearer " + accessToken],
    not absent. *)
Theorem state_strategy_success_keeps_header
      (w : World ES) (st : ProviderState) (user : JsVal) (es : ES) :
  not_str (headers_authorization (request w)) = true ->
  not_str (accessToken st) = false ->
  callWithRequest
    (with_authorization (Some ("Bearer " ++ value_of (accessToken st))) (request w))
    "shield.authenticate" (backend w) = (inr user, es) ->
  fst (authenticate options (Some st) w)
  = inr (AuthenticationResult.Succeeded user None)
  /\ headers_authorization (request (snd (authenticate options (Some st) w)))
     = Some ("Bearer " ++ value_of (accessToken st))
  /\ calls (snd (authenticate options (Some st) w))
     = (calls w
          ++ [AsUser (with_authorization
                        (Some ("Bearer " ++ value_of (accessToken st))%string)
                        (request w))
                     "shield.authenticate"])%list.
Proof.
  intros Hheader Htoken Hcall.
  rewrite (authenticate_state_accepted w st user es Hheader Htoken Hcall).
  repeat split.
Qed.

(** C2, as amended.  With a state that holds no access token (whether or not
    it holds a refresh token), the state strategy returns [NotHandled] and
    touches neither the request nor the backend, and the refresh strategy is
    not attempted: no call of [authenticate] adds a [getAccessToken] call to
    the history.  When the header is not presented either, [authenticate]
    goes on with the payload strategy and then, if that one does not handle
    the request, with the handshake. *)
Theorem no_access_token_skips_refresh (w : World ES) (st : ProviderState) :
  not_str (accessToken st) = true ->
  authenticateViaState st w
  = (inr AuthenticationResult.NotHandled,
     with_logs w ["Trying to authenticate via state.";
                  "Access token is not found in state."])
  /\ (exists new,
        calls (snd (authenticate options (Some st) w)) = (calls w ++ new)%list
        /\ forallb not_getAccessToken new = true)
  /\ (not_str (headers_authorization (request w)) = true ->
      authenticate options (Some st) w
      = (authenticationResult <- authenticateViaPayload options (Some st) ;;
         if AuthenticationResult.notHandled authenticationResult
         then authenticateViaHandshake options
         else ret authenticationResult)
          (with_logs w
             ["Trying to authenticate user request to "
                ++ url_path (request w) ++ ".";
              "Trying to authenticate via header.";
              "Authorization header is not presented.";
              "Trying to authenticate via state.";
              "Access token is not found in state."])).
Proof.
  intros Htoken. split; [| split].
  - exact (authenticateViaState_no_token st w Htoken).
  - revert w. change (adds_calls not_getAccessToken (authenticate options (Some st))).
    unfold authenticate.
    apply adds_calls_bind; [apply adds_calls_silent; reflexivity | intros request].
    apply adds_calls_bind; [apply adds_calls_silent; reflexivity | intros _].
    apply adds_calls_bind; [apply authenticateViaHeader_never_refreshes |].
    intros [authenticationResult [|]];
      [apply adds_calls_silent; reflexivity |].
    apply adds_calls_bind.
    + destruct (AuthenticationResult.notHandled authenticationResult);
        [| apply adds_calls_silent; reflexivity].
      apply adds_calls_silent. intros w. unfold bind.
      rewrite (authenticateViaState_no_token st w Htoken). reflexivity.
    + intros r. apply adds_calls_bind.
      * destruct (AuthenticationResult.notHandled r);
          [apply authenticateViaPayload_never_refreshes
          | apply adds_calls_silent; reflexivity].
      * intros r'. destruct (AuthenticationResult.notHandled r');
          [apply authenticateViaHandshake_never_refreshes
          | apply adds_calls_silent; reflexivity].
  - intros Hheader.
    rewrite (authenticate_without_header (Some st) w Hheader).
    unfold bind at 1. unfold bind at 1.
    rewrite (authenticateViaState_no_token st _ Htoken).
    cbn [AuthenticationResult.failed andb AuthenticationResult.notHandled].
    unfold ret at 1. rewrite with_logs_app. reflexivity.
Qed.

(** C3, as amended.  A request that carries a [SAMLResponse] payload:
    - when there is no state (and no header is presented), the login is
      IdP-initiated: [authenticate] makes one call, [samlAuthenticate] with
      [ids: []] and the [SAMLResponse] as content, and on success returns
      [Redirect(basePath + "/", { accessToken, refreshToken })];
    - when a state is present with neither [requestId] nor [nextURL], the
      payload strategy does not treat the login as IdP-initiated: it returns
      [Failed(badRequest(...))] and does not call the backend; so does
      [authenticate] when no header is presented and the state holds no
      access token. *)
Theorem saml_response_idp_initiated_or_corrupt_state (w : World ES) :
  truthy (isSAMLResponsePayload (payload (request w))) = true ->
  (not_str (headers_authorization (request w)) = true ->
   calls (snd (authenticate options None w))
   = (calls w
        ++ [AsInternalUser
              (shield_samlAuthenticate
                 [] (get (payload (request w)) "SAMLResponse"))])%list
   /\ forall response es,
       callWithInternalUser
         _ (shield_samlAuthenticate [] (get (payload (request w)) "SAMLResponse"))
         (backend w) = (inr response, es) ->
       fst (authenticate options None w)
       = inr (AuthenticationResult.RedirectTo
                (basePath options ++ "/")
                (Some {| requestId := None;
                         nextURL := None;
                         accessToken := Some (access_token response);
                         refreshToken := Some (refresh_token response) |})))
  /\ forall st,
      not_str (requestId st) = true ->
      not_str (nextURL st) = true ->
      authenticateViaPayload options (Some st) w
      = (inr (AuthenticationResult.Failed
                (Boom_badRequest
                   "SAML response state does not have corresponding request id or redirect URL.")),
         with_logs w
           ["Trying to authenticate via SAML response payload.";
            "SAML response state does not have corresponding request id or redirect URL."])
      /\ (not_str (headers_authorization (request w)) = true ->
          not_str (accessToken st) = true ->
          fst (authenticate options (Some st) w)
          = inr (AuthenticationResult.Failed
                   (Boom_badRequest
                      "SAML response state does not have corresponding request id or redirect URL."))
          /\ calls (snd (authenticate options (Some st) w)) = calls w
          /\ backend (snd (authenticate options (Some st) w)) = backend w).
Proof.
  intros Hpayload. split.
  - intros Hheader.
    rewrite (authenticate_idp_initiated w Hheader Hpayload).
    split.
    + destruct (callWithInternalUser _ _ _) as [[err | response] es];
        reflexivity.
    + intros response es Hcall. rewrite Hcall. reflexivity.
  - intros st Hid Hurl.
    assert (Hstate : not_str (requestId st) || not_str (nextURL st) = true)
      by (rewrite Hid; reflexivity).
    split.
    + exact (authenticateViaPayload_corrupt_state st w Hpayload Hstate).
    + intros Hheader Htoken.
      rewrite (authenticate_corrupt_state w st Hheader Htoken Hpayload Hstate).
      repeat split.
Qed.

(** C8.  A request that carries a [SAMLResponse] payload, with a state that
    holds both [requestId] and [nextURL]: the payload strategy makes one
    call, [samlAuthenticate] with [ids: [requestId]] and the [SAMLResponse] as
    content; when the backend answers with a token pair the result is
    [Redirect(nextURL, { accessToken, refreshToken })] with both tokens of
    the answer, and when it throws the result is [Failed(err)].
    [authenticate] runs that strategy, on the same request and backend, when
    no header is presented and the state holds no access token. *)
Theorem saml_response_sp_initiated (w : World ES) (st : ProviderState) :
  truthy (isSAMLResponsePayload (payload (request w))) = true ->
  not_str (requestId st) = false ->
  not_str (nextURL st) = false ->
  calls (snd (authenticateViaPayload options (Some st) w))
  = (calls w
       ++ [AsInternalUser
             (shield_samlAuthenticate
                [value_of (requestId st)]
                (get (payload (request w)) "SAMLResponse"))])%list
  /\ (forall response es,
        callWithInternalUser
          _ (shield_samlAuthenticate
               [value_of (requestId st)]
               (get (payload (request w)) "SAMLResponse"))
          (backend w) = (inr response, es) ->
        fst (authenticateViaPayload options (Some st) w)
        = inr (AuthenticationResult.RedirectTo
                 (value_of (nextURL st))
                 (Some {| requestId := None;
                          nextURL := None;
                          accessToken := Some (access_token response);
                          refreshToken := Some (refresh_token response) |})))
  /\ (forall err es,
        callWithInternalUser
          _ (shield_samlAuthenticate
               [value_of (requestId st)]
               (get (payload (request w)) "SAMLResponse"))
          (backend w) = (inl err, es) ->
        fst (authenticateViaPayload options (Some st) w)
        = inr (AuthenticationResult.Failed err))
  /\ (not_str (headers_authorization (request w)) = true ->
      not_str (accessToken st) = true ->
      authenticate options (Some st) w
      = authenticateViaPayload options (Some st)
          (with_logs w
             ["Trying to authenticate user request to "
                ++ url_path (request w) ++ ".";
              "Trying to authenticate via header.";
              "Authorization header is not presented.";
              "Trying to authenticate via state.";
              "Access token is not found in state."])).
Proof.
  intros Hpayload Hid Hurl.
  rewrite (authenticateViaPayload_sp_initiated st w Hpayload Hid Hurl).
  split; [| split; [| split]].
  - destruct (callWithInternalUser _ _ _) as [[err | response] es]; reflexivity.
  - intros response es Hcall. rewrite Hcall. reflexivity.
  - intros err es Hcall. rewrite Hcall. reflexivity.
  - intros Hheader Htoken.
    exact (authenticate_reaches_payload w st Hheader Htoken Hpayload).
Qed.

(** C7.  When the [try] block of the refresh strategy throws [err], the
    [Authorization] header is deleted from the request, and then: if the
    status code of [err] is [400] and the request can be redirected, the
    strategy falls through to the handshake; if it is [400] and the request
    cannot be redirected, the result is
    [Failed(badRequest("Both access and refresh tokens are expired."))]; for
    any other error the result is [Failed(err)].  [caught] is the world in
    which the [catch] block decides: the request without the header, the
    backend as the failed call left it, the calls made so far. *)
Theorem refresh_failure_outcomes
      (w : World ES) (st : ProviderState)
      (err : Error) (es : ES) (made : list BackendCall) :
  not_str (refreshToken st) = false ->
  refresh_throws st w err es made ->
  exists caught : World ES,
    request caught = with_authorization None (request w)
    /\ backend caught = es
    /\ calls caught = (calls w ++ made)%list
    /\ authenticateViaRefreshToken options st w
       = (if strict_eq_num (getErrorStatusCode (JObj err)) 400 then
            if canRedirectRequest (request caught) then
              authenticateViaHandshake
                options
                (with_logs
                   caught
                   ["Both access and refresh tokens are expired. Re-initiating SAML handshake."])
            else
              (inr (AuthenticationResult.Failed
                      (Boom_badRequest "Both access and refresh tokens are expired.")),
               caught)
          else
            (inr (AuthenticationResult.Failed err), caught))
    /\ headers_authorization
         (request (snd (authenticateViaRefreshToken options st w)))
       = None.
Proof.
  intros Htoken Hthrows.
  assert (Hdeleted : forall caught : World ES,
             request caught = with_authorization None (request w) ->
             headers_authorization
               (request
                  (snd (if strict_eq_num (getErrorStatusCode (JObj err)) 400 then
                          if canRedirectRequest (request caught) then
                            authenticateViaHandshake
                              options
                              (with_logs
                                 caught
                                 ["Both access and refresh tokens are expired. Re-initiating SAML handshake."])
                          else
                            (inr (AuthenticationResult.Failed
                                    (Boom_badRequest
                                       "Both access and refresh tokens are expired.")),
                             caught)
                        else
                          (inr (AuthenticationResult.Failed err), caught))))
             = None).
  { intros caught Hrequest.
    destruct (strict_eq_num _ 400); [destruct (canRedirectRequest _) |];
      rewrite ?authenticateViaHandshake_keeps_request; cbn;
      rewrite Hrequest; reflexivity. }
  destruct Hthrows as [[Hcall ->] | (response & es1 & Hcall1 & Hcall2 & ->)].
  - exists (with_logs
              (with_header
                 (answered
                    w
                    (AsInternalUser
                       (shield_getAccessToken
                          "refresh_token" (value_of (refreshToken st))))
                    es)
                 None)
              ["Trying to refresh access token.";
               "Failed to refresh access token: " ++ message_of err]).
    split; [reflexivity |]. split; [reflexivity |]. split; [reflexivity |].
    match goal with
    | |- ?run = ?outcome /\ _ =>
        assert (Heq : run = outcome); [| split; [exact Heq |]]
    end.
    + unfold authenticateViaRefreshToken.
      remember (authenticateViaHandshake options) as handshake eqn:Hhandshake.
      unfold_monad. cbn in Hcall |- *.
      rewrite Htoken. cbn. rewrite Hcall. cbn.
      destruct (strict_eq_num _ 400); [destruct (canRedirectRequest _) |];
        [apply (f_equal handshake) | |]; same_world.
    + rewrite Heq. apply Hdeleted. reflexivity.
  - cbv zeta in Hcall1, Hcall2 |- *.
    exists (with_logs
              (with_header
                 (answered
                    (answered
                       w
                       (AsInternalUser
                          (shield_getAccessToken
                             "refresh_token" (value_of (refreshToken st))))
                       es1)
                    (AsUser
                       (with_authorization
                          (Some ("Bearer " ++ access_token response)) (request w))
                       "shield.authenticate")
                    es)
                 None)
              ["Trying to refresh access token.";
               "Access token has been successfully refreshed.";
               "Failed to refresh access token: " ++ message_of err]).
    split; [reflexivity |]. split; [reflexivity |].
    split; [cbn; rewrite <- app_assoc; reflexivity |].
    match goal with
    | |- ?run = ?outcome /\ _ =>
        assert (Heq : run = outcome); [| split; [exact Heq |]]
    end.
    + unfold authenticateViaRefreshToken.
      remember (authenticateViaHandshake options) as handshake eqn:Hhandshake.
      unfold_monad. cbn in Hcall1, Hcall2 |- *.
      rewrite Htoken. cbn. rewrite Hcall1. cbn. rewrite Hcall2. cbn.
      destruct (strict_eq_num _ 400); [destruct (canRedirectRequest _) |];
        [apply (f_equal handshake) | |]; same_world.
    + rewrite Heq. apply Hdeleted. reflexivity.
Qed.

(** C9.  A [deauthenticate] call that reaches the backend makes one call,
    [samlInvalidate] for a request with a [SAMLRequest] query and
    [samlLogout] otherwise.  When the backend answers, the result is
    [Redirect(redirect)] if the [redirect] of the answer is not null and
    [Redirect("/logged_out")] if it is; when the call throws [err], the
    result is [Failed(err)]. *)
Theorem deauthenticate_outcomes
      (w : World ES) (state : option ProviderState) :
  reaches_backend state (request w) = true ->
  calls (snd (deauthenticate options state w))
  = (calls w ++ [AsInternalUser (logoutArgs_of options state (request w))])%list
  /\ fst (deauthenticate options state w)
     = match fst (callWithInternalUser
                    _ (logoutArgs_of options state (request w)) (backend w)) with
       | inr {| redirect := Some target |} =>
           inr (DeauthenticationResult.RedirectTo target)
       | inr {| redirect := None |} =>
           inr (DeauthenticationResult.RedirectTo "/logged_out")
       | inl err =>
           inr (DeauthenticationResult.Failed err)
       end
  /\ logoutArgs_of options state (request w)
     = (if truthy (isSAMLRequestQuery (query (request w))) then
          shield_samlInvalidate
            (if negb (not_str (url_search (request w)))
             then slice_1 (value_of (url_search (request w)))
             else "")
            (getACS options)
        else
          shield_samlLogout (bang accessToken state) (bang refreshToken state)).
Proof.
  intros Hreach. unfold reaches_backend in Hreach.
  apply negb_true_iff in Hreach.
  split; [| split; [| reflexivity]].
  - unfold deauthenticate, logoutArgs_of. unfold_monad. cbn.
    rewrite Hreach.
    destruct (truthy (isSAMLRequestQuery (query (request w)))); cbn;
      destruct (callWithInternalUser _ _ _) as [[err | [[target |]]] es];
      reflexivity.
  - unfold deauthenticate, logoutArgs_of. unfold_monad. cbn.
    rewrite Hreach.
    destruct (truthy (isSAMLRequestQuery (query (request w)))); cbn;
      destruct (callWithInternalUser _ _ _) as [[err | [[target |]]] es];
      reflexivity.
Qed.


(** C10.  A header value that begins with a whitespace character: the first
    piece of [split(/\s+/)] is the empty string, which is not [bearer], so
    [authenticate] returns [NotHandled] at once and the backend is not
    called. *)
Theorem leading_whitespace_is_unrecognised_scheme
      (w : World ES) (state : option ProviderState) (c : ascii) (rest : string) :
  headers_authorization (request w) = Some (String c rest) ->
  is_whitespace c = true ->
  hd "" (split_whitespace (String c rest)) = ""
  /\ authenticate options state w
     = (inr AuthenticationResult.NotHandled,
        with_logs w
          ["Trying to authenticate user request to " ++ url_path (request w) ++ ".";
           "Trying to authenticate via header.";
           "Unsupported authentication schema: "])
  /\ calls (snd (authenticate options state w)) = calls w
  /\ backend (snd (authenticate options state w)) = backend w.
Proof.
  intros Hh Hc.
  pose proof (split_whitespace_leading c rest Hc) as Hscheme.
  assert (Hrun := authenticate_unrecognized_scheme w state (String c rest) Hh).
  rewrite Hscheme in Hrun.
  specialize (Hrun ltac:(discriminate) ltac:(discriminate)).
  rewrite Hrun. repeat split. exact Hscheme.
Qed.

(** C6.  The classifier holds an error [e] for an expired access token
    exactly when [getErrorStatusCode e] is [401], or is [500] while
    [e.body.error.reason] can be read and is the string
    ["token document is missing and must be present"]. *)
Theorem isAccessTokenExpiredError_iff (e : JsVal) :
  truthy (isAccessTokenExpiredError e) = true
  <-> (getErrorStatusCode e = JNum 401
       \/ (getErrorStatusCode e = JNum 500
           /\ get_path e ["body"; "error"; "reason"]
              = Some (JStr "token document is missing and must be present"))).
Proof.
  unfold isAccessTokenExpiredError.
  rewrite truthy_js_or, !truthy_js_and. cbn [truthy].
  rewrite orb_true_iff, !andb_true_iff, !strict_eq_num_true, strict_eq_str_true.
  split.
  - intros [H401 | [[[[H500 He] Hbody] Herror] Hreason]]; [now left | right].
    split; [exact H500 |].
    cbn [get_path].
    rewrite (get_strict_truthy _ "body" He).
    rewrite (get_strict_truthy _ "error" Hbody).
    rewrite (get_strict_truthy _ "reason" Herror).
    now rewrite Hreason.
  - intros [H401 | [H500 Hpath]]; [now left | right].
    cbn [get_path] in Hpath.
    destruct (get_strict e "body") as [body |] eqn:Ebody; [| discriminate].
    destruct (get_strict body "error") as [err |] eqn:Eerror; [| discriminate].
    destruct (get_strict err "reason") as [reason |] eqn:Ereason; [| discriminate].
    injection Hpath as ->.
    apply get_strict_defined in Ereason; [| discriminate].
    destruct Ereason as [Herr Hreason].
    apply get_strict_defined in Eerror; [| now intros ->].
    destruct Eerror as [Hbody Herror].
    apply get_strict_defined in Ebody; [| now intros ->].
    destruct Ebody as [He Hb].
    subst. repeat split; assumption.
Qed.

End Properties.

(* ===================================================================== *)
(** ** The properties at concrete requests *)
(* ===================================================================== *)

Import Scenario.

(** C1, the claim as stated fails: no header on entry, an established
    session, a backend that accepts the token.  The state strategy succeeds
    and the header is on the request afterwards. *)
Lemma state_success_header_counterexample :
  headers_authorization (request (fresh (get_home None))) = None
  /\ fst (@authenticate nat (scripted accepts_A) browser kibana (Some session)
                        (fresh (get_home None)))
     = inr (AuthenticationResult.Succeeded user None)
  /\ headers_authorization
       (request (snd (@authenticate nat (scripted accepts_A) browser kibana
                                    (Some session) (fresh (get_home None)))))
     = Some "Bearer A"
  /\ headers_authorization
       (request (snd (@authenticate nat (scripted accepts_A) browser kibana
                                    (Some session) (fresh (get_home None)))))
     <> headers_authorization (request (fresh (get_home None))).
Proof.
  vm_compute. repeat split. discriminate.
Qed.

Lemma state_success_header_witness :
  fst (@authenticate nat (scripted accepts_A) browser kibana (Some session)
                     (fresh (get_home None)))
  = inr (AuthenticationResult.Succeeded user None)
  /\ headers_authorization
       (request (snd (@authenticate nat (scripted accepts_A) browser kibana
                                    (Some session) (fresh (get_home None)))))
     = Some "Bearer A"
  /\ calls (snd (@authenticate nat (scripted accepts_A) browser kibana
                               (Some session) (fresh (get_home None))))
     = [AsUser (get_home (Some "Bearer A")) "shield.authenticate"].
Proof.
  apply (@state_strategy_success_keeps_header
           nat (scripted accepts_A) browser kibana
           (fresh (get_home None)) session user 1);
    reflexivity.
Defined.

(** C2, the claim as stated fails: a state with a refresh token and no
    access token, no header, no payload.  The only call is [samlPrepare]:
    the handshake is reached and [getAccessToken] is never called. *)
Lemma refresh_without_access_token_counterexample :
  not_str (accessToken refresh_only) = true
  /\ not_str (refreshToken refresh_only) = false
  /\ calls (snd (@authenticate nat (scripted accepts_A) browser kibana
                               (Some refresh_only) (fresh (get_home None))))
     = [AsInternalUser
          (shield_samlPrepare "https://kibana.local:5601/kbn/api/security/v1/saml")]
  /\ existsb is_getAccessToken
       (calls (snd (@authenticate nat (scripted accepts_A) browser kibana
                                  (Some refresh_only) (fresh (get_home None)))))
     = false.
Proof.
  vm_compute. repeat split.
Qed.

Lemma skips_refresh_witness :
  @authenticateViaState nat (scripted accepts_A) refresh_only
                        (fresh (get_home None))
  = (inr AuthenticationResult.NotHandled,
     with_logs (fresh (get_home None))
       ["Trying to authenticate via state.";
        "Access token is not found in state."])
  /\ exists new,
      calls (snd (@authenticate nat (scripted accepts_A) browser kibana
                                (Some refresh_only) (fresh (get_home None))))
      = ([] ++ new)%list
      /\ forallb not_getAccessToken new = true.
Proof.
  pose proof (@no_access_token_skips_refresh
                nat (scripted accepts_A) browser kibana
                (fresh (get_home None)) refresh_only eq_refl) as H.
  split; [exact (proj1 H) | exact (proj1 (proj2 H))].
Defined.

(** C3, the claim as stated fails: a [SAMLResponse] payload with a state
    that is present and holds neither [requestId] nor [nextURL].  The result
    is the bad-request failure and [samlAuthenticate] is not called. *)
Lemma empty_state_payload_counterexample :
  truthy (isSAMLResponsePayload (payload post_acs)) = true
  /\ not_str (requestId emptyState) = true
  /\ not_str (nextURL emptyState) = true
  /\ @authenticate nat (scripted accepts_A) browser kibana (Some emptyState)
                   (fresh post_acs)
     = (inr (AuthenticationResult.Failed
               (badRequest
                  "SAML response state does not have corresponding request id or redirect URL.")),
        with_logs (fresh post_acs)
          ["Trying to authenticate user request to /api/security/v1/saml.";
           "Trying to authenticate via header.";
           "Authorization header is not presented.";
           "Trying to authenticate via state.";
           "Access token is not found in state.";
           "Trying to authenticate via SAML response payload.";
           "SAML response state does not have corresponding request id or redirect URL."])
  /\ calls (snd (@authenticate nat (scripted accepts_A) browser kibana
                               (Some emptyState) (fresh post_acs)))
     = [].
Proof.
  vm_compute. repeat split.
Qed.

Lemma idp_initiated_witness :
  calls (snd (@authenticate nat (scripted accepts_A) browser kibana None
                            (fresh post_acs)))
  = [AsInternalUser (shield_samlAuthenticate [] (JStr "PHNhbWw+"))]
  /\ fst (@authenticate nat (scripted accepts_A) browser kibana None
                        (fresh post_acs))
     = inr (AuthenticationResult.RedirectTo
              "/kbn/"
              (Some {| requestId := None; nextURL := None;
                       accessToken := Some "A"; refreshToken := Some "R" |}))
  /\ fst (@authenticate nat (scripted accepts_A) browser kibana (Some emptyState)
                        (fresh post_acs))
     = inr (AuthenticationResult.Failed
              (badRequest
                 "SAML response state does not have corresponding request id or redirect URL.")).
Proof.
  pose proof (@saml_response_idp_initiated_or_corrupt_state
                nat (scripted accepts_A) browser kibana (fresh post_acs) eq_refl)
    as [Hidp Hcorrupt].
  specialize (Hidp eq_refl). destruct Hidp as [Hcalls Hresult].
  specialize (Hresult {| access_token := "A"; refresh_token := "R" |} 1 eq_refl).
  specialize (Hcorrupt emptyState eq_refl eq_refl).
  destruct Hcorrupt as [_ Hauth].
  specialize (Hauth eq_refl eq_refl).
  split; [exact Hcalls | split; [exact Hresult | exact (proj1 Hauth)]].
Defined.



(** The header [" Bearer A"]. *)
Lemma leading_whitespace_witness :
  hd "" (split_whitespace " Bearer A") = ""
  /\ @authenticate nat (scripted accepts_A) browser kibana (Some session)
                   (fresh (get_home (Some " Bearer A")))
     = (inr AuthenticationResult.NotHandled,
        with_logs (fresh (get_home (Some " Bearer A")))
          ["Trying to authenticate user request to /app/home.";
           "Trying to authenticate via header.";
           "Unsupported authentication schema: "]).
Proof.
  pose proof (@leading_whitespace_is_unrecognised_scheme
                nat (scripted accepts_A) browser kibana
                (fresh (get_home (Some " Bearer A"))) (Some session)
                " "%char "Bearer A" eq_refl eq_refl) as H.
  split; [exact (proj1 H) | exact (proj1 (proj2 H))].
Defined.

(** C4, at the request the code mishandles: the [Authorization] header
    arrives with an empty value, the state holds an access token and the
    backend rejects it with [403].  The header strategy takes the empty value
    for a header that is not presented, the state strategy writes its own
    header over it and deletes it after the failure: the result is [Failed]
    and the property, [""] on entry, is absent afterwards. *)
Theorem empty_header_deleted_on_failure :
  headers_authorization (request (fresh (get_home (Some "")))) = Some ""
  /\ fst (@authenticate nat (scripted forbids) browser kibana (Some session)
                        (fresh (get_home (Some ""))))
     = inr (AuthenticationResult.Failed (esError 403 "forbidden"))
  /\ headers_authorization
       (request (snd (@authenticate nat (scripted forbids) browser kibana
                                    (Some session) (fresh (get_home (Some ""))))))
     = None
  /\ calls (snd (@authenticate nat (scripted forbids) browser kibana
                               (Some session) (fresh (get_home (Some "")))))
     = [AsUser (get_home (Some "Bearer A")) "shield.authenticate"].
Proof.
  vm_compute. repeat split.
Qed.

(** An AJAX request with an expired access token and a spent refresh
    token. *)
Lemma refresh_failure_witness :
  fst (@authenticateViaRefreshToken nat (scripted all_expired) ajax kibana session
                                    (fresh (get_home None)))
  = inr (AuthenticationResult.Failed
           (badRequest "Both access and refresh tokens are expired."))
  /\ headers_authorization
       (request (snd (@authenticateViaRefreshToken
                        nat (scripted all_expired) ajax kibana session
                        (fresh (get_home None)))))
     = None.
Proof.
  destruct (@refresh_failure_outcomes
              nat (scripted all_expired) ajax kibana
              (fresh (get_home None)) session
              (esError 400 "invalid_grant") 1
              [AsInternalUser (shield_getAccessToken "refresh_token" "R")]
              eq_refl (or_introl (conj eq_refl eq_refl)))
    as (caught & Hrequest & Hbackend & Hcalls & Hrun & Hheader).
  split; [| exact Hheader].
  rewrite Hrun. reflexivity.
Defined.

(** The callback of an SP-initiated login. *)
Lemma sp_initiated_witness :
  calls (snd (@authenticateViaPayload nat (scripted accepts_A) browser kibana
                                      (Some handshake) (fresh post_acs)))
  = [AsInternalUser (shield_samlAuthenticate ["req-1"] (JStr "PHNhbWw+"))]
  /\ fst (@authenticateViaPayload nat (scripted accepts_A) browser kibana
                                  (Some handshake) (fresh post_acs))
     = inr (AuthenticationResult.RedirectTo
              "/kbn/app/home"
              (Some {| requestId := None; nextURL := None;
                       accessToken := Some "A"; refreshToken := Some "R" |})).
Proof.
  pose proof (@saml_response_sp_initiated
                nat (scripted accepts_A) browser kibana
                (fresh post_acs) handshake eq_refl eq_refl eq_refl)
    as (Hcalls & Hresult & _).
  split; [exact Hcalls |].
  exact (Hresult {| access_token := "A"; refresh_token := "R" |} 1 eq_refl).
Defined.

(** A logout that the Identity Provider has initiated. *)
Lemma deauthenticate_witness :
  calls (snd (@deauthenticate nat (scripted accepts_A) kibana None
                              (fresh slo_request)))
  = [AsInternalUser
       (shield_samlInvalidate
          "SAMLRequest=PHNsbz4%3D&SigAlg=rsa-sha256"
          "https://kibana.local:5601/kbn/api/security/v1/saml")]
  /\ fst (@deauthenticate nat (scripted accepts_A) kibana None
                          (fresh slo_request))
     = inr (DeauthenticationResult.RedirectTo "https://idp/slo").
Proof.
  pose proof (@deauthenticate_outcomes
                nat (scripted accepts_A) kibana
                (fresh slo_request) None eq_refl)
    as (Hcalls & Hresult & _).
  split; [exact Hcalls | exact Hresult].
Defined.

(** *** The scenarios of the specification *)

(** A first visit from a browser starts the handshake. *)
Example first_visit_starts_handshake :
  fst (@authenticate nat (scripted accepts_A) browser kibana None
                     (fresh (get_home None)))
  = inr (AuthenticationResult.RedirectTo
           "https://idp/sso"
           (Some {| requestId := Some "req-1"; nextURL := Some "/kbn/app/home";
                    accessToken := None; refreshToken := None |})).
Proof. reflexivity. Qed.

(** An expired access token is refreshed and the new pair is returned. *)
Example expired_token_is_refreshed :
  let backend_A2 :=
    {| asUser := fun authorization =>
         match authorization with
         | Some "Bearer A2" => inr user
         | _ => inl (esError 401 "unauthorized")
         end;
       asInternalUser := internal_ok |} in
  fst (@authenticate nat (scripted backend_A2) browser kibana (Some session)
                     (fresh (get_home None)))
  = inr (AuthenticationResult.Succeeded
           user
           (Some {| requestId := None; nextURL := None;
                    accessToken := Some "A2"; refreshToken := Some "R2" |})).
Proof. reflexivity. Qed.

(** With both tokens expired, an AJAX request fails with a bad request and a
    browser is sent to the Identity Provider. *)
Example both_tokens_expired :
  fst (@authenticate nat (scripted all_expired) ajax kibana (Some session)
                     (fresh (get_home None)))
  = inr (AuthenticationResult.Failed
           (badRequest "Both access and refresh tokens are expired."))
  /\ fst (@authenticate nat (scripted all_expired) browser kibana (Some session)
                        (fresh (get_home None)))
     = inr (AuthenticationResult.RedirectTo
              "https://idp/sso"
              (Some {| requestId := Some "req-1"; nextURL := Some "/kbn/app/home";
                       accessToken := None; refreshToken := None |})).
Proof. split; reflexivity. Qed.

(** A logout by the user, with no single logout at the Identity Provider. *)
Example user_logout :
  @deauthenticate nat (scripted accepts_A) kibana (Some session)
                  (fresh (get_logout (JObj []) None))
  = (inr (DeauthenticationResult.RedirectTo "/logged_out"),
     with_logs
       (answered (fresh (get_logout (JObj []) None))
                 (AsInternalUser (shield_samlLogout (Some "A") (Some "R")))
                 1)
       ["Trying to deauthenticate user via /logout.";
        "Logout has been initiated by the user.";
        "User session has been successfully invalidated."]).
Proof. reflexivity. Qed.

(* ===================================================================== *)
(** ** Further properties of the provider *)
(* ===================================================================== *)

(** One case for every test the strategies make and every answer of the
    backend. *)
Ltac split_on x :=
  lazymatch x with
  | context [match _ with _ => _ end] => fail
  | negb ?y => split_on y
  | andb ?y _ => split_on y
  | orb ?y _ => split_on y
  | _ => destruct x eqn:?
  end.

Ltac split_case :=
  match goal with
  | |- context [match ?x with _ => _ end] => split_on x
  end.

Ltac every_path :=
  unfold authenticate, deauthenticate, authenticateViaHeader,
    authenticateViaState, authenticateViaRefreshToken, authenticateViaPayload,
    authenticateViaHandshake;
  unfold_monad; unfold with_header, with_authorization; cbn;
  repeat (split_case; cbn);
  try match goal with
      | H : false = true |- _ => discriminate H
      | H : true = false |- _ => discriminate H
      end.

Lemma not_str_false (x : option string) :
  not_str x = false -> exists a, x = Some a /\ a <> "" /\ value_of x = a.
Proof.
  destruct x as [a |]; cbn; [| discriminate].
  intros H. exists a. repeat split.
  intros ->. discriminate.
Qed.

Lemma toLowerCase_char_letter (lower upper c : ascii) :
  In (lower, upper)
     [("b", "B"); ("e", "E"); ("a", "A"); ("r", "R")]%char ->
  (toLowerCase_char c =? lower)%char = is_letter lower upper c.
Proof.
  intros Hin. cbn in Hin.
  destruct Hin as [H | [H | [H | [H | []]]]]; injection H as <- <-;
    destruct c as [[] [] [] [] [] [] [] []]; reflexivity.
Qed.

(** X17.  The scheme test.  [toLowerCase] of a header scheme is [bearer]
    exactly for the 64 spellings of the word in upper and lower case ASCII
    letters: no other character of the header alphabet lowers to one of its
    letters. *)
Theorem bearer_scheme_spellings (scheme : string) :
  (toLowerCase scheme =? "bearer") = spells_bearer scheme.
Proof.
  destruct scheme as [| c1 [| c2 [| c3 [| c4 [| c5 [| c6 [| c7 rest]]]]]]];
    cbn [toLowerCase spells_bearer String.eqb];
    rewrite ?(toLowerCase_char_letter "b" "B"), ?(toLowerCase_char_letter "e" "E"),
      ?(toLowerCase_char_letter "a" "A"), ?(toLowerCase_char_letter "r" "R")
      by (cbn; tauto);
    repeat match goal with
           | |- context [if ?b then _ else _] => destruct b
           end;
    reflexivity.
Qed.

(** X18.  The scheme that [split(/\s+/)[0]] extracts is the longest prefix of
    the header value without whitespace: it holds no whitespace, and what
    follows it in the value is nothing or begins with whitespace. *)
Theorem scheme_is_longest_prefix (value : string) :
  exists rest,
    value = hd "" (split_whitespace value) ++ rest
    /\ no_whitespace (hd "" (split_whitespace value)) = true
    /\ at_whitespace rest = true.
Proof.
  induction value as [| c value IH].
  - exists "". repeat split.
  - destruct (is_whitespace c) eqn:Hc.
    + exists (String c value).
      rewrite (split_whitespace_leading c value Hc). cbn. rewrite Hc.
      repeat split.
    + destruct IH as (rest & Hvalue & Hno & Hrest).
      exists rest. cbn [split_whitespace]. rewrite Hc.
      pose proof (split_whitespace_nonempty value) as Hne.
      destruct (split_whitespace value) as [| piece pieces]; [congruence |].
      cbn in Hvalue, Hno |- *. rewrite Hc, Hno. cbn.
      split; [f_equal; exact Hvalue | split; [reflexivity | exact Hrest]].
Qed.

(** X19.  [isSAMLResponsePayload] and [isSAMLRequestQuery] hold exactly for an
    object whose [SAMLResponse] (resp. [SAMLRequest]) property is truthy:
    [undefined], [null], a primitive, an object without the property or with
    an empty one are all refused. *)
Theorem saml_payload_and_query_recognised (v : JsVal) :
  (truthy (@isSAMLResponsePayload v) = true
   <-> exists props,
       v = JObj props /\ truthy (lookup "SAMLResponse" props) = true)
  /\ (truthy (@isSAMLRequestQuery v) = true
      <-> exists props,
          v = JObj props /\ truthy (lookup "SAMLRequest" props) = true).
Proof.
  unfold isSAMLResponsePayload, isSAMLRequestQuery.
  rewrite !truthy_js_and, !andb_true_iff.
  split; (split;
          [ intros [Hv Hp]; destruct v; try discriminate;
            eexists; split; [reflexivity | exact Hp]
          | intros (props & -> & Hp); split; [reflexivity | exact Hp] ]).
Qed.

Lemma scheme_of_injected_header (token : string) :
  hd "" (split_whitespace ("Bearer " ++ token)) = "Bearer".
Proof.
  cbn. destruct token as [| c token].
  - reflexivity.
  - destruct (is_whitespace c) eqn:Hc.
    + pose proof (split_whitespace_leading c token Hc) as H.
      pose proof (split_whitespace_nonempty (String c token)) as Hne.
      destruct (split_whitespace (String c token)) as [| p ps];
        [congruence |].
      cbn in H. subst p. reflexivity.
    + reflexivity.
Qed.

Lemma injected_header_carries_bearer (token : string) :
  carries_bearer (Some ("Bearer " ++ token)) = true.
Proof.
  unfold carries_bearer. cbn [not_str value_of].
  rewrite scheme_of_injected_header. reflexivity.
Qed.

Section Coverage.

Context {ES : Type} {client : Cluster ES} {imports : Imports}.
Variable options : ProviderOptions.

(** X2.  [deauthenticate] does not change the request: headers, payload,
    query and URL are after the call what they were before it, whatever the
    state and the answer of the backend. *)
Theorem deauthenticate_keeps_request
        (state : option ProviderState) (w : World ES) :
  request (snd (deauthenticate options state w)) = request w.
Proof.
  every_path; reflexivity.
Qed.

(** X3.  [deauthenticate] declines exactly when there is neither an access
    token in the state nor a [SAMLRequest] in the query, and then it does not
    call the backend. *)
Theorem deauthenticate_declines_iff
        (state : option ProviderState) (w : World ES) :
  (fst (deauthenticate options state w) = inr DeauthenticationResult.NotHandled
   <-> reaches_backend state (request w) = false)
  /\ (reaches_backend state (request w) = false ->
      calls (snd (deauthenticate options state w)) = calls w
      /\ backend (snd (deauthenticate options state w)) = backend w).
Proof.
  unfold reaches_backend. rewrite negb_false_iff.
  every_path; (split; [split |]); intros; try discriminate; try congruence;
    try (split; reflexivity); reflexivity.
Qed.

(** X4.  Of the request, [authenticate] writes [headers.authorization] and
    nothing else: payload, query, URL and base path are the same after every
    run. *)
Theorem authenticate_writes_only_the_header
        (state : option ProviderState) (w : World ES) :
  with_authorization None (request (snd (authenticate options state w)))
  = with_authorization None (request w).
Proof.
  every_path; reflexivity.
Qed.

(** X6.  The endpoints that one run of [authenticate] calls, in order, are one
    of ten sequences.  So a run never calls [samlLogout] or [samlInvalidate],
    asks for new tokens at most once and only after the backend has rejected
    the access token of the state, and calls [samlAuthenticate] or
    [samlPrepare] last if at all. *)
Theorem authenticate_call_sequences
        (state : option ProviderState) (w : World ES) :
  exists new,
    calls (snd (authenticate options state w)) = (calls w ++ new)%list
    /\ In (map endpoint_of new) authenticate_sequences.
Proof.
  every_path;
    first
      [ exists []; split;
        [ symmetry; apply app_nil_r
        | cbn; repeat first [left; reflexivity | right] ]
      | eexists; split;
        [ rewrite <- ?app_assoc; reflexivity
        | cbn; repeat first [left; reflexivity | right] ] ].
Qed.

Lemma authenticateViaRefreshToken_no_token (st : ProviderState) (w : World ES) :
  not_str (refreshToken st) = true ->
  authenticateViaRefreshToken options st w
  = (inr AuthenticationResult.NotHandled,
     with_logs w ["Trying to refresh access token.";
                  "Refresh token is not found in state."]).
Proof.
  intros H. unfold_provider. cbn. rewrite H. cbn. same_world.
Qed.

(** X8.  A request with a [Bearer] header, in any letter case, is decided
    by the header strategy alone: one call as the user with the request as it
    came, [Succeeded(user)] without a state when the backend accepts it and
    [Failed(err)] when it does not.  The state is not consulted, even when
    the error is an expired token: nothing is refreshed, no payload is
    exchanged, no handshake starts. *)
Theorem bearer_header_decides (state : option ProviderState) (w : World ES) :
  carries_bearer (headers_authorization (request w)) = true ->
  calls (snd (authenticate options state w))
  = (calls w ++ [AsUser (request w) "shield.authenticate"])%list
  /\ request (snd (authenticate options state w)) = request w
  /\ fst (authenticate options state w)
     = match fst (callWithRequest
                    (request w) "shield.authenticate" (backend w)) with
       | inr user => inr (AuthenticationResult.Succeeded user None)
       | inl err => inr (AuthenticationResult.Failed err)
       end.
Proof.
  unfold carries_bearer. rewrite andb_true_iff, negb_true_iff.
  intros [Hpresented Hscheme].
  unfold authenticate, authenticateViaHeader. unfold_monad. cbn.
  rewrite Hpresented. cbn. rewrite Hscheme. cbn.
  destruct (callWithRequest _ _ _) as [[err | user] es]; cbn;
    destruct state; cbn; repeat split.
Qed.

(** X9.  The state strategy fails with an error that the classifier does
    not hold for an expired token: [authenticate] ends with [Failed(err)]
    after that one call, with the injected header deleted; the refresh token
    is not used, the payload not looked at, no handshake started. *)
Theorem state_error_ends_authenticate
        (w : World ES) (st : ProviderState) (err : Error) (es : ES) :
  not_str (headers_authorization (request w)) = true ->
  not_str (accessToken st) = false ->
  callWithRequest
    (with_authorization (Some ("Bearer " ++ value_of (accessToken st))) (request w))
    "shield.authenticate" (backend w) = (inl err, es) ->
  truthy (isAccessTokenExpiredError (JObj err)) = false ->
  fst (authenticate options (Some st) w) = inr (AuthenticationResult.Failed err)
  /\ calls (snd (authenticate options (Some st) w))
     = (calls w
          ++ [AsUser (with_authorization
                        (Some ("Bearer " ++ value_of (accessToken st))%string)
                        (request w))
                     "shield.authenticate"])%list
  /\ backend (snd (authenticate options (Some st) w)) = es
  /\ headers_authorization (request (snd (authenticate options (Some st) w)))
     = None.
Proof.
  intros Hheader Htoken Hcall Hother.
  rewrite (authenticate_state_rejected options w st err es Hheader Htoken Hcall).
  rewrite Hother. repeat split.
Qed.

(** X10.  The access token has expired and the state holds no refresh
    token: the refresh strategy returns [NotHandled] without a call, the
    error of the state strategy is dropped, and [authenticate] goes on with
    the payload strategy and the handshake on the request without the
    header. *)
Theorem expired_token_without_refresh_token
        (w : World ES) (st : ProviderState) (err : Error) (es : ES) :
  not_str (headers_authorization (request w)) = true ->
  not_str (accessToken st) = false ->
  callWithRequest
    (with_authorization (Some ("Bearer " ++ value_of (accessToken st))) (request w))
    "shield.authenticate" (backend w) = (inl err, es) ->
  truthy (isAccessTokenExpiredError (JObj err)) = true ->
  not_str (refreshToken st) = true ->
  authenticate options (Some st) w
  = (authenticationResult <- authenticateViaPayload options (Some st) ;;
     if AuthenticationResult.notHandled authenticationResult
     then authenticateViaHandshake options
     else ret authenticationResult)
      (with_logs
         (with_header
            (answered
               w
               (AsUser (with_authorization
                          (Some ("Bearer " ++ value_of (accessToken st)))
                          (request w))
                       "shield.authenticate")
               es)
            None)
         ["Trying to authenticate user request to " ++ url_path (request w) ++ ".";
          "Trying to authenticate via header.";
          "Authorization header is not presented.";
          "Trying to authenticate via state.";
          "Failed to authenticate request via state: " ++ message_of err;
          "Trying to refresh access token.";
          "Refresh token is not found in state."]).
Proof.
  intros Hheader Htoken Hcall Hexpired Hrefresh.
  rewrite (authenticate_state_rejected options w st err es Hheader Htoken Hcall).
  rewrite Hexpired.
  unfold bind at 1.
  rewrite (authenticateViaRefreshToken_no_token st _ Hrefresh).
  rewrite with_logs_app. reflexivity.
Qed.

(** X11.  The access token has expired, the refresh token is accepted and so is
    the new access token: the result is [Succeeded(user)] with the new pair
    of tokens as state, the request leaves with the new access token in its
    header, and the backend has been called three times. *)
Theorem refresh_success_outcome
        (w : World ES) (st : ProviderState) (err : Error) (es1 : ES)
        (response : TokenResponse) (es2 : ES) (user : JsVal) (es3 : ES) :
  not_str (headers_authorization (request w)) = true ->
  not_str (accessToken st) = false ->
  callWithRequest
    (with_authorization (Some ("Bearer " ++ value_of (accessToken st))) (request w))
    "shield.authenticate" (backend w) = (inl err, es1) ->
  truthy (isAccessTokenExpiredError (JObj err)) = true ->
  not_str (refreshToken st) = false ->
  callWithInternalUser
    _ (shield_getAccessToken "refresh_token" (value_of (refreshToken st))) es1
  = (inr response, es2) ->
  callWithRequest
    (with_authorization (Some ("Bearer " ++ access_token response)) (request w))
    "shield.authenticate" es2 = (inr user, es3) ->
  fst (authenticate options (Some st) w)
  = inr (AuthenticationResult.Succeeded
           user
           (Some {| requestId := None;
                    nextURL := None;
                    accessToken := Some (access_token response);
                    refreshToken := Some (refresh_token response) |}))
  /\ headers_authorization (request (snd (authenticate options (Some st) w)))
     = Some ("Bearer " ++ access_token response)
  /\ calls (snd (authenticate options (Some st) w))
     = (calls w
          ++ [AsUser (with_authorization
                        (Some ("Bearer " ++ value_of (accessToken st))%string)
                        (request w))
                     "shield.authenticate";
              AsInternalUser
                (shield_getAccessToken
                   "refresh_token" (value_of (refreshToken st)));
              AsUser (with_authorization
                        (Some ("Bearer " ++ access_token response)%string)
                        (request w))
                     "shield.authenticate"])%list
  /\ backend (snd (authenticate options (Some st) w)) = es3.
Proof.
  intros Hheader Htoken Hcall Hexpired Hrefresh Hnew Hretry.
  rewrite (authenticate_state_rejected options w st err es1 Hheader Htoken Hcall).
  rewrite Hexpired.
  unfold bind at 1.
  unfold authenticateViaRefreshToken. unfold_monad.
  unfold with_header, with_authorization in Hnew, Hretry |- *.
  cbn in Hnew, Hretry |- *.
  rewrite Hrefresh. cbn. rewrite Hnew. cbn. rewrite Hretry. cbn.
  rewrite <- !app_assoc. repeat split.
Qed.

(** X12.  No header, no access token in the state, no [SAMLResponse] payload:
    the handshake decides.  A request that cannot be redirected is declined
    without a backend call; otherwise [samlPrepare] is called with the ACS
    URL, and its answer gives [Redirect(redirect, { requestId, nextURL })]
    with the base path and path of the request as [nextURL], its error gives
    [Failed(err)]. *)
Theorem handshake_decides (w : World ES) (state : option ProviderState) :
  not_str (headers_authorization (request w)) = true ->
  not_str (bang accessToken state) = true ->
  truthy (isSAMLResponsePayload (payload (request w))) = false ->
  (canRedirectRequest (request w) = false ->
   fst (authenticate options state w) = inr AuthenticationResult.NotHandled
   /\ calls (snd (authenticate options state w)) = calls w
   /\ backend (snd (authenticate options state w)) = backend w)
  /\ (canRedirectRequest (request w) = true ->
      calls (snd (authenticate options state w))
      = (calls w ++ [AsInternalUser (shield_samlPrepare (getACS options))])%list
      /\ fst (authenticate options state w)
         = match fst (callWithInternalUser
                        _ (shield_samlPrepare (getACS options)) (backend w)) with
           | inr response =>
               inr (AuthenticationResult.RedirectTo
                      (prepare_redirect response)
                      (Some {| requestId := Some (id response);
                               nextURL := Some (getBasePath (request w)
                                                  ++ url_path (request w));
                               accessToken := None;
                               refreshToken := None |}))
           | inl err => inr (AuthenticationResult.Failed err)
           end).
Proof.
  intros Hheader Htoken Hpayload.
  rewrite (authenticate_without_header options state w Hheader).
  assert (Hrun :
            forall w0 : World ES,
              request w0 = request w ->
              (authenticationResult <-
                 match state with
                 | Some st =>
                     authenticationResult <- authenticateViaState st ;;
                     if AuthenticationResult.failed authenticationResult
                        && truthy (isAccessTokenExpiredError
                                     (AuthenticationResult.error authenticationResult))
                     then authenticateViaRefreshToken options st
                     else ret authenticationResult
                 | None => ret AuthenticationResult.NotHandled
                 end ;;
               authenticationResult <-
                 (if AuthenticationResult.notHandled authenticationResult
                  then authenticateViaPayload options state
                  else ret authenticationResult) ;;
               if AuthenticationResult.notHandled authenticationResult
               then authenticateViaHandshake options
               else ret authenticationResult) w0
              = authenticateViaHandshake
                  options
                  (with_logs
                     w0
                     (match state with
                      | Some _ => ["Trying to authenticate via state.";
                                   "Access token is not found in state."]
                      | None => []
                      end
                        ++ ["Trying to authenticate via SAML response payload.";
                            "SAML response payload is not found."]))).
  { intros w0 Hw0. unfold bind at 1.
    destruct state as [st |].
    - unfold bind at 1.
      rewrite (authenticateViaState_no_token st w0 Htoken).
      cbn [AuthenticationResult.failed andb]. unfold ret at 1.
      unfold bind. cbn [AuthenticationResult.notHandled].
      rewrite authenticateViaPayload_no_payload
        by (cbn; rewrite Hw0; exact Hpayload).
      cbn [AuthenticationResult.notHandled].
      rewrite with_logs_app. reflexivity.
    - unfold ret at 1. unfold bind. cbn [AuthenticationResult.notHandled].
      rewrite authenticateViaPayload_no_payload
        by (rewrite Hw0; exact Hpayload).
      cbn [AuthenticationResult.notHandled]. reflexivity. }
  rewrite Hrun by reflexivity.
  split; intros Hredirect.
  - rewrite authenticateViaHandshake_ajax by exact Hredirect.
    repeat split.
  - rewrite authenticateViaHandshake_browser by exact Hredirect.
    cbn [backend with_logs request].
    destruct (callWithInternalUser _ _ _) as [[err | response] es];
      split; reflexivity.
Qed.

(** X13.  When [authenticate] returns [Succeeded], the request leaves with a
    header that carries the scheme [bearer]; and when the result brings a
    new state, the header is ["Bearer "] followed by the access token of
    that state. *)
Theorem succeeded_request_carries_bearer
        (state : option ProviderState) (w : World ES)
        (user : JsVal) (newState : option ProviderState) :
  fst (authenticate options state w)
  = inr (AuthenticationResult.Succeeded user newState) ->
  carries_bearer
    (headers_authorization (request (snd (authenticate options state w))))
  = true
  /\ forall s,
      newState = Some s ->
      headers_authorization (request (snd (authenticate options state w)))
      = Some ("Bearer " ++ value_of (accessToken s)).
Proof.
  remember carries_bearer as bearer eqn:Hbearer.
  every_path; intros Hresult; try discriminate Hresult;
    injection Hresult as <- <-; subst bearer.
  all: split; [| intros carried Hcarried; try discriminate Hcarried;
                 injection Hcarried as <-; reflexivity].
  all: try apply injected_header_carries_bearer.
  all: unfold carries_bearer; apply andb_true_intro; split;
    [ apply negb_true_iff; assumption | assumption ].
Qed.

(** X14.  A provider whose requests can all be redirected declines a request
    only for its header: when [authenticate] returns [NotHandled], the
    request carries an [Authorization] header with a scheme other than
    [bearer]. *)
Theorem browser_declined_only_for_its_header
        (state : option ProviderState) (w : World ES) :
  (forall r, canRedirectRequest r = true) ->
  fst (authenticate options state w) = inr AuthenticationResult.NotHandled ->
  exists authorization,
    headers_authorization (request w) = Some authorization
    /\ authorization <> ""
    /\ toLowerCase (hd "" (split_whitespace authorization)) <> "bearer".
Proof.
  intros Hredirect. revert w.
  assert (Hfalse : forall r, canRedirectRequest r = false -> False)
    by (intros r H; rewrite Hredirect in H; discriminate H).
  clear Hredirect. intros w.
  every_path; intros Hresult; try discriminate Hresult;
    try (exfalso; eapply Hfalse; eassumption).
  match goal with
  | H : not_str _ = false |- _ =>
      destruct (not_str_false _ H) as (a & Ha & Hne & Hvalue)
  end.
  exists a. split; [exact Ha | split; [exact Hne |]].
  rewrite <- Hvalue. intros Hscheme.
  match goal with
  | H : (_ =? _) = false |- _ => apply String.eqb_neq in H; apply H
  end.
  exact Hscheme.
Qed.

(** X7.  The strategies start in the order header, state, refresh token,
    payload, handshake: the first messages that one run of [authenticate]
    logs are, in the order of the log, a selection of that list, each at
    most once, and the header strategy is always the first. *)
Theorem strategies_start_in_order
        (state : option ProviderState) (w : World ES) :
  exists entries,
    logged (snd (authenticate options state w)) = (logged w ++ entries)%list
    /\ is_subsequence (strategies_started entries) strategy_starts = true
    /\ hd_error (strategies_started entries)
       = Some "Trying to authenticate via header.".
Proof.
  every_path;
    (eexists; split; [rewrite <- ?app_assoc; reflexivity | split; reflexivity]).
Qed.

(** X16.  The state that the handshake returns is the state that the callback
    needs.  Its [nextURL] is the base path and path of the request that
    started the handshake; when a request without header brings the
    [SAMLResponse] back with that state, [samlAuthenticate] is called with
    the request id of the handshake and success redirects to that URL.  If
    the backend had prepared the handshake with an empty id, or the first
    request had an empty path, the callback fails as a bad request without
    calling the backend. *)
Theorem handshake_state_serves_the_callback
        (w1 w2 : World ES) (target : string) (s : ProviderState) :
  fst (authenticateViaHandshake options w1)
  = inr (AuthenticationResult.RedirectTo target (Some s)) ->
  not_str (headers_authorization (request w2)) = true ->
  truthy (isSAMLResponsePayload (payload (request w2))) = true ->
  nextURL s = Some (getBasePath (request w1) ++ url_path (request w1))
  /\ (not_str (requestId s) = false ->
      not_str (nextURL s) = false ->
      calls (snd (authenticate options (Some s) w2))
      = (calls w2
           ++ [AsInternalUser
                 (shield_samlAuthenticate
                    [value_of (requestId s)]
                    (get (payload (request w2)) "SAMLResponse"))])%list
      /\ forall tokens es,
          callWithInternalUser
            _ (shield_samlAuthenticate
                 [value_of (requestId s)]
                 (get (payload (request w2)) "SAMLResponse"))
            (backend w2) = (inr tokens, es) ->
          fst (authenticate options (Some s) w2)
          = inr (AuthenticationResult.RedirectTo
                   (getBasePath (request w1) ++ url_path (request w1))
                   (Some {| requestId := None;
                            nextURL := None;
                            accessToken := Some (access_token tokens);
                            refreshToken := Some (refresh_token tokens) |})))
  /\ (not_str (requestId s) || not_str (nextURL s) = true ->
      fst (authenticate options (Some s) w2)
      = inr (AuthenticationResult.Failed
               (Boom_badRequest
                  "SAML response state does not have corresponding request id or redirect URL."))
      /\ calls (snd (authenticate options (Some s) w2)) = calls w2).
Proof.
  intros Hhandshake Hheader Hpayload.
  assert (Hs : nextURL s = Some (getBasePath (request w1) ++ url_path (request w1))
               /\ accessToken s = None).
  { destruct (canRedirectRequest (request w1)) eqn:Hredirect.
    - rewrite (authenticateViaHandshake_browser options w1 Hredirect)
        in Hhandshake.
      destruct (callWithInternalUser _ _ _) as [[err | prepared] es];
        cbn in Hhandshake; [discriminate Hhandshake |].
      injection Hhandshake as _ <-. split; reflexivity.
    - rewrite (authenticateViaHandshake_ajax options w1 Hredirect)
        in Hhandshake.
      discriminate Hhandshake. }
  destruct Hs as [Hnext Haccess].
  assert (Htoken : not_str (accessToken s) = true)
    by (rewrite Haccess; reflexivity).
  rewrite (authenticate_reaches_payload options w2 s Hheader Htoken Hpayload).
  split; [exact Hnext | split].
  - intros Hid Hurl.
    erewrite authenticateViaPayload_sp_initiated;
      [| exact Hpayload | exact Hid | exact Hurl].
    cbn [request backend calls with_logs].
    rewrite Hnext. cbn [value_of].
    split.
    + destruct (callWithInternalUser _ _ _) as [[err | tokens] es]; reflexivity.
    + intros tokens es Hcall. rewrite Hcall. reflexivity.
  - intros Hcorrupt.
    erewrite authenticateViaPayload_corrupt_state;
      [| exact Hpayload | exact Hcorrupt].
    split; reflexivity.
Qed.

(** X15.  Header neutrality, for every request whose header on entry is not
    the empty string: whenever [authenticate] returns [NotHandled] or
    [Failed], [request.headers.authorization] is what it was on entry, absent
    or the value that the caller supplied. *)
Theorem header_kept_on_declined_or_failed
        (w : World ES) (state : option ProviderState)
        (result : AuthenticationResult.t) (w' : World ES) :
  headers_authorization (request w) <> Some "" ->
  authenticate options state w = (inr result, w') ->
  AuthenticationResult.notHandled result
  || AuthenticationResult.failed result = true ->
  headers_authorization (request w') = headers_authorization (request w).
Proof.
  intros Hentry Hrun Hresult.
  destruct (header_neutrality_unless_empty options w state Hentry)
    as (result0 & w0 & Hrun0 & Hkept).
  rewrite Hrun in Hrun0. injection Hrun0 as <- <-.
  exact (Hkept Hresult).
Qed.

End Coverage.

(* ===================================================================== *)
(** ** The further properties at concrete requests *)
(* ===================================================================== *)

(** A header in capitals, with a session in the state that is not used. *)
Lemma bearer_header_witness :
  calls (snd (@authenticate nat (scripted Cases.accepts_all) browser kibana
                            (Some session) (fresh (get_home (Some "BEARER A")))))
  = [AsUser (get_home (Some "BEARER A")) "shield.authenticate"]
  /\ fst (@authenticate nat (scripted Cases.accepts_all) browser kibana
                        (Some session) (fresh (get_home (Some "BEARER A"))))
     = inr (AuthenticationResult.Succeeded user None).
Proof.
  pose proof (@bearer_header_decides
                nat (scripted Cases.accepts_all) browser kibana
                (Some session) (fresh (get_home (Some "BEARER A"))) eq_refl)
    as (Hcalls & _ & Hresult).
  split; [exact Hcalls | exact Hresult].
Defined.

(** A session whose access token the backend forbids. *)
Lemma state_error_witness :
  fst (@authenticate nat (scripted forbids) browser kibana (Some session)
                     (fresh (get_home None)))
  = inr (AuthenticationResult.Failed (esError 403 "forbidden"))
  /\ calls (snd (@authenticate nat (scripted forbids) browser kibana
                               (Some session) (fresh (get_home None))))
     = [AsUser (get_home (Some "Bearer A")) "shield.authenticate"].
Proof.
  pose proof (@state_error_ends_authenticate
                nat (scripted forbids) browser kibana
                (fresh (get_home None)) session (esError 403 "forbidden") 1
                eq_refl eq_refl eq_refl eq_refl)
    as (Hresult & Hcalls & _).
  split; [exact Hresult | exact Hcalls].
Defined.

(** An expired session without refresh token, from a browser: the handshake
    starts. *)
Lemma expired_without_refresh_witness :
  fst (@authenticate nat (scripted Cases.expired) browser kibana
                     (Some Cases.access_only) (fresh (get_home None)))
  = inr (AuthenticationResult.RedirectTo
           "https://idp/sso"
           (Some {| requestId := Some "req-1"; nextURL := Some "/kbn/app/home";
                    accessToken := None; refreshToken := None |})).
Proof.
  rewrite (@expired_token_without_refresh_token
             nat (scripted Cases.expired) browser kibana
             (fresh (get_home None)) Cases.access_only
             (esError 401 "unauthorized") 1
             eq_refl eq_refl eq_refl eq_refl eq_refl).
  reflexivity.
Defined.

(** An expired session that is refreshed. *)
Lemma refresh_success_witness :
  fst (@authenticate nat (scripted Cases.accepts_A2) browser kibana
                     (Some session) (fresh (get_home None)))
  = inr (AuthenticationResult.Succeeded
           user
           (Some {| requestId := None; nextURL := None;
                    accessToken := Some "A2"; refreshToken := Some "R2" |}))
  /\ headers_authorization
       (request (snd (@authenticate nat (scripted Cases.accepts_A2) browser
                                    kibana (Some session)
                                    (fresh (get_home None)))))
     = Some "Bearer A2".
Proof.
  pose proof (@refresh_success_outcome
                nat (scripted Cases.accepts_A2) browser kibana
                (fresh (get_home None)) session
                (esError 401 "unauthorized") 1
                {| access_token := "A2"; refresh_token := "R2" |} 2
                user 3
                eq_refl eq_refl eq_refl eq_refl eq_refl eq_refl eq_refl)
    as (Hresult & Hheader & _).
  split; [exact Hresult | exact Hheader].
Defined.

(** A first visit from a browser. *)
Lemma first_visit_witness :
  calls (snd (@authenticate nat (scripted accepts_A) browser kibana None
                            (fresh (get_home None))))
  = [AsInternalUser
       (shield_samlPrepare "https://kibana.local:5601/kbn/api/security/v1/saml")]
  /\ fst (@authenticate nat (scripted accepts_A) browser kibana None
                        (fresh (get_home None)))
     = inr (AuthenticationResult.RedirectTo
              "https://idp/sso"
              (Some {| requestId := Some "req-1";
                       nextURL := Some "/kbn/app/home";
                       accessToken := None; refreshToken := None |})).
Proof.
  pose proof (@handshake_decides
                nat (scripted accepts_A) browser kibana
                (fresh (get_home None)) None eq_refl eq_refl eq_refl)
    as [_ Hbrowser].
  exact (Hbrowser eq_refl).
Defined.

(** The refreshed session leaves with its new token in the header. *)
Lemma succeeded_bearer_witness :
  carries_bearer
    (headers_authorization
       (request (snd (@authenticate nat (scripted Cases.accepts_A2) browser
                                    kibana (Some session)
                                    (fresh (get_home None))))))
  = true.
Proof.
  exact (proj1 (@succeeded_request_carries_bearer
                  nat (scripted Cases.accepts_A2) browser kibana
                  (Some session) (fresh (get_home None)) user
                  (Some {| requestId := None; nextURL := None;
                           accessToken := Some "A2";
                           refreshToken := Some "R2" |})
                  eq_refl)).
Defined.

(** A browser request with a [Basic] header. *)
Lemma browser_declined_witness :
  exists authorization,
    headers_authorization
      (request (fresh (get_home (Some "Basic dXNlcjpwYXNz"))))
    = Some authorization
    /\ authorization <> ""
    /\ toLowerCase (hd "" (split_whitespace authorization)) <> "bearer".
Proof.
  exact (@browser_declined_only_for_its_header
           nat (scripted accepts_A) browser kibana
           (Some session) (fresh (get_home (Some "Basic dXNlcjpwYXNz")))
           (fun _ => eq_refl) eq_refl).
Defined.

(** A request without header whose session the backend forbids. *)
Lemma header_kept_witness :
  headers_authorization
    (request (snd (@authenticate nat (scripted forbids) browser kibana
                                 (Some session) (fresh (get_home None)))))
  = headers_authorization (request (fresh (get_home None))).
Proof.
  apply (@header_kept_on_declined_or_failed
           nat (scripted forbids) browser kibana
           (fresh (get_home None)) (Some session)
           (AuthenticationResult.Failed (esError 403 "forbidden"))
           (snd (@authenticate nat (scripted forbids) browser kibana
                               (Some session) (fresh (get_home None))))).
  - discriminate.
  - reflexivity.
  - reflexivity.
Defined.

(** The handshake of a first visit and the callback that answers it. *)
Lemma callback_witness :
  nextURL handshake = Some "/kbn/app/home"
  /\ fst (@authenticate nat (scripted accepts_A) browser kibana (Some handshake)
                        (fresh post_acs))
     = inr (AuthenticationResult.RedirectTo
              "/kbn/app/home"
              (Some {| requestId := None; nextURL := None;
                       accessToken := Some "A"; refreshToken := Some "R" |})).
Proof.
  pose proof (@handshake_state_serves_the_callback
                nat (scripted accepts_A) browser kibana
                (fresh (get_home None)) (fresh post_acs)
                "https://idp/sso" handshake eq_refl eq_refl eq_refl)
    as (Hnext & Hcallback & _).
  split; [exact Hnext |].
  destruct (Hcallback eq_refl eq_refl) as [_ Hresult].
  exact (Hresult {| access_token := "A"; refresh_token := "R" |} 1 eq_refl).
Defined.
